(** * wiki-fastapi: the authenticated publishing session

    A shallow embedding of [wiki_publish.py] and
    [psi_wiki_integration/wiki_client.py].

    The remote wiki is an oracle: a function from the history of the run and
    the request at hand to a reply.  Every function of the program is a
    computation that reads the history so far and returns its outcome (a
    value or a raised exception) together with the events it emitted, in
    order: HTTP exchanges and log records. *)

From Stdlib Require Import ZArith List String Ascii Bool Lia.
Import ListNotations.
Open Scope string_scope.
Open Scope list_scope.
Open Scope Z_scope.

(** ** Python values

    What [response.json()] can produce, and what the program passes around.
    JSON numbers are integers here. *)

#[warnings="-register-all"]
Inductive pyval : Type :=
| PNone
| PBool (b : bool)
| PInt (n : Z)
| PStr (s : string)
| PList (l : list pyval)
| PDict (d : list (string * pyval)).

(** Exceptions, by class.  A message is kept as the pieces of the f-string
    that builds it: literals, interpolated values and [str(e)]. *)

#[warnings="-register-all"]
Inductive exn : Type :=
| HTTPError (status : Z)
| RuntimeError (msg : list piece)
| ConnectionError
| JSONDecodeError
| AttributeError
| KeyError
| TypeError
| IndexError
| RecursionError
with piece : Type :=
| Lit (s : string)
| Val (v : pyval)
| StrOf (e : exn).

Inductive result (A : Type) : Type :=
| Ok (a : A)
| Raise (e : exn).
Arguments Ok {A} a.
Arguments Raise {A} e.

(** ** HTTP and the log *)

Inductive Method := GET | POST.

Record Request := mkRequest {
  meth : Method;
  url : string;
  fields : list (string * pyval)
}.

(** [json_body = None]: the body is not JSON, [response.json()] raises. *)
Record Response := mkResponse {
  status_code : Z;
  json_body : option pyval
}.

Inductive Reply :=
| Refused                    (* the transport raised: no response at all *)
| Answer (rs : Response).

Inductive Level := INFO | WARNING | ERROR.

Inductive Event :=
| Http (rq : Request) (rp : Reply)
| Log (lvl : Level) (msg : list piece).

Definition Remote := list Event -> Request -> Reply.

(** ** Computations *)

Definition M (A : Type) : Type := list Event -> result A * list Event.

Definition ret {A} (a : A) : M A := fun _ => (Ok a, []).

Definition raise {A} (e : exn) : M A := fun _ => (Raise e, []).

Definition bind {A B} (m : M A) (f : A -> M B) : M B :=
  fun h =>
    match m h with
    | (Ok a, d1) =>
        match f a (h ++ d1) with
        | (r, d2) => (r, d1 ++ d2)
        end
    | (Raise e, d1) => (Raise e, d1)
    end.

(** [try: m  except Exception as e: handler e] *)
Definition try_except {A} (m : M A) (handler : exn -> M A) : M A :=
  fun h =>
    match m h with
    | (Ok a, d1) => (Ok a, d1)
    | (Raise e, d1) =>
        match handler e (h ++ d1) with
        | (r, d2) => (r, d1 ++ d2)
        end
    end.

Definition lift {A} (r : result A) : M A := fun _ => (r, []).

Definition logger (lvl : Level) (msg : list piece) : M unit :=
  fun _ => (Ok tt, [Log lvl msg]).

Declare Scope py_scope.
Delimit Scope py_scope with py.
Notation "x <- m ;; k" := (bind m (fun x => k))
  (at level 100, m at next level, right associativity) : py_scope.
Notation "' pat <- m ;; k" := (bind m (fun x => match x with pat => k end))
  (at level 100, pat pattern, m at next level, right associativity) : py_scope.
Notation "m ;; k" := (bind m (fun _ => k))
  (at level 100, right associativity) : py_scope.
Open Scope py_scope.

(** ** Operations on Python values *)

Fixpoint lookup (k : string) (d : list (string * pyval)) : option pyval :=
  match d with
  | [] => None
  | (k', v) :: d' => if String.eqb k k' then Some v else lookup k d'
  end.

(** [bool(v)] *)
Definition truthy (v : pyval) : bool :=
  match v with
  | PNone => false
  | PBool b => b
  | PInt n => negb (n =? 0)
  | PStr s => negb (String.eqb s "")
  | PList l => match l with [] => false | _ => true end
  | PDict d => match d with [] => false | _ => true end
  end.

(** [v == "s"] for a string literal *)
Definition is_str (v : pyval) (s : string) : bool :=
  match v with
  | PStr t => String.eqb t s
  | _ => false
  end.

(** [v.get(k, default)]: only a dict has [get] *)
Definition py_get (v : pyval) (k : string) (default : pyval) : result pyval :=
  match v with
  | PDict d => Ok (match lookup k d with Some x => x | None => default end)
  | _ => Raise AttributeError
  end.

(** [v[k]] for a string key *)
Definition getitem (v : pyval) (k : string) : result pyval :=
  match v with
  | PDict d => match lookup k d with Some x => Ok x | None => Raise KeyError end
  | _ => Raise TypeError
  end.

(** [needle in hay] on strings *)
Definition str_in (needle hay : string) : bool :=
  match String.index 0 needle hay with
  | Some _ => true
  | None => false
  end.

(** [s.startswith(p)] *)
Definition startswith (s p : string) : bool := String.prefix p s.

(** [k in v] for a string [k] *)
Definition py_contains (v : pyval) (k : string) : result bool :=
  match v with
  | PDict d => Ok (match lookup k d with Some _ => true | None => false end)
  | PList l => Ok (existsb (fun x => is_str x k) l)
  | PStr s => Ok (str_in k s)
  | _ => Raise TypeError
  end.

(** [v[0]] *)
Definition getitem0 (v : pyval) : result pyval :=
  match v with
  | PList (x :: _) => Ok x
  | PList [] => Raise IndexError
  | PStr (String c _) => Ok (PStr (String c ""))
  | PStr EmptyString => Raise IndexError
  | PDict _ => Raise KeyError
  | _ => Raise TypeError
  end.

(** [str.isspace] on text of code points below 256, one character each:
    tab to carriage return, the four separators 28..31, space, NEL and the
    no-break space.  This is what [strip] below knows; it serves where the
    program strips what a user typed, and to run the page copy on such
    text. *)
Definition isspace (c : ascii) : bool :=
  let n := N_of_ascii c in
  ((9 <=? n) && (n <=? 13) || (28 <=? n) && (n <=? 32)
   || (n =? 133) || (n =? 160))%N.

Fixpoint lstrip (s : string) : string :=
  match s with
  | EmptyString => EmptyString
  | String c s' => if isspace c then lstrip s' else s
  end.

Fixpoint rstrip (s : string) : string :=
  match s with
  | EmptyString => EmptyString
  | String c s' =>
      match rstrip s' with
      | EmptyString => if isspace c then EmptyString else String c EmptyString
      | t => String c t
      end
  end.

(** [s.strip()] on text of code points below 256 *)
Definition strip (s : string) : string := rstrip (lstrip s).

(** [c.lower()] below 256: A..Z and the accented capitals 192..222, the
    multiplication sign 215 apart. *)
Definition lower_char (c : ascii) : ascii :=
  let n := N_of_ascii c in
  if ((65 <=? n) && (n <=? 90)
      || (192 <=? n) && (n <=? 222) && negb (n =? 215))%N
  then ascii_of_N (n + 32)
  else c.

(** [s.lower()] on text of code points below 256 *)
Fixpoint lower (s : string) : string :=
  match s with
  | EmptyString => EmptyString
  | String c s' => String (lower_char c) (lower s')
  end.

Definition newline : string := String (ascii_of_nat 10) EmptyString.

(** ** The transport *)

Section Transport.

Variable remote : Remote.

Definition send (rq : Request) : M Response :=
  fun h =>
    match remote h rq with
    | Refused => (Raise ConnectionError, [Http rq Refused])
    | Answer rs => (Ok rs, [Http rq (Answer rs)])
    end.

Definition session_get (u : string) (params : list (string * pyval)) : M Response :=
  send (mkRequest GET u params).

Definition session_post (u : string) (data : list (string * pyval)) : M Response :=
  send (mkRequest POST u data).

End Transport.

(** [response.raise_for_status()] *)
Definition raise_for_status (response : Response) : M unit :=
  if (400 <=? status_code response) && (status_code response <? 600)
  then raise (HTTPError (status_code response))
  else ret tt.

(** [response.json()] *)
Definition json (response : Response) : M pyval :=
  match json_body response with
  | Some v => ret v
  | None => raise JSONDecodeError
  end.

(** [range(n)] *)
Definition range (n : Z) : list Z := map Z.of_nat (seq 0 (Z.to_nat n)).

(** ** wiki_publish.py *)

Module WikiPublish.

Definition WIKI_API_URL : string := "https://en.wikipedia.org/w/api.php".
Definition DEFAULT_BOT_SUFFIX : string := "PsiAdirondackBot".
Definition DEFAULT_TEMPLATE : string := "product_wiki.txt".
Definition DEFAULT_SUMMARY : string := "Automated update via PsiAdirondack CRM".

Definition login_token_request : Request :=
  mkRequest GET WIKI_API_URL
    [("action", PStr "query"); ("meta", PStr "tokens");
     ("type", PStr "login"); ("format", PStr "json")].

Definition csrf_token_request : Request :=
  mkRequest GET WIKI_API_URL
    [("action", PStr "query"); ("meta", PStr "tokens"); ("format", PStr "json")].

Definition login_request (username : string) (password token : pyval) : Request :=
  mkRequest POST WIKI_API_URL
    [("action", PStr "login"); ("lgname", PStr username);
     ("lgpassword", password); ("lgtoken", token); ("format", PStr "json")].

Definition botpasswords_request (csrf_token : pyval) (botname : string) : Request :=
  mkRequest POST WIKI_API_URL
    [("action", PStr "botpasswords"); ("format", PStr "json");
     ("token", csrf_token); ("botpasswordname", PStr botname);
     ("grants", PStr "editpage,createpage,writeapi");
     ("reason", PStr "Automated publishing through PsiAdirondack CRM")].

Definition edit_request (title content : string) (csrf_token : pyval)
    (summary : string) : Request :=
  mkRequest POST WIKI_API_URL
    [("action", PStr "edit"); ("title", PStr title); ("text", PStr content);
     ("token", csrf_token); ("summary", PStr summary);
     ("format", PStr "json"); ("bot", PBool true)].

Definition attempting_bot_password : list piece :=
  [Lit "Attempting bot password creation..."].

Section Session.

Variable remote : Remote.

Definition get_login_token : M pyval :=
  try_except
    (response <- send remote login_token_request ;;
     raise_for_status response ;;
     body <- json response ;;
     query <- lift (getitem body "query") ;;
     tokens <- lift (getitem query "tokens") ;;
     lift (getitem tokens "logintoken"))
    (fun e =>
       logger ERROR [Lit "Token fetch failed: "; StrOf e] ;;
       raise (RuntimeError [Lit "Could not retrieve login token"])).

Definition get_csrf_token : M pyval :=
  try_except
    (response <- send remote csrf_token_request ;;
     raise_for_status response ;;
     body <- json response ;;
     query <- lift (getitem body "query") ;;
     tokens <- lift (getitem query "tokens") ;;
     lift (getitem tokens "csrftoken"))
    (fun e =>
       logger ERROR [Lit "CSRF token fetch failed: "; StrOf e] ;;
       raise (RuntimeError [Lit "Could not retrieve CSRF token"])).

(** [login] and [create_bot_password] call each other.  [depth] is the
    number of nested calls the interpreter still allows: a call beyond it
    raises [RecursionError] in the caller, as Python's recursion limit
    does. *)
Fixpoint login (depth : nat) (username : string) (password token : pyval)
    {struct depth} : M (string * pyval) :=
  match depth with
  | O => raise RecursionError
  | S d =>
      try_except
        (response <- send remote (login_request username password token) ;;
         raise_for_status response ;;
         body <- json response ;;
         login_data <- lift (py_get body "login" (PDict [])) ;;
         res <- lift (py_get login_data "result" PNone) ;;
         if is_str res "Success" then ret (username, PNone)
         else
           code <- lift (py_get login_data "code" PNone) ;;
           if is_str code "WrongPass" && negb (str_in "@" username) then
             logger INFO attempting_bot_password ;;
             ' (bot_username, bot_password) <-
                 create_bot_password d username password DEFAULT_BOT_SUFFIX ;;
             new_token <- get_login_token ;;
             login d bot_username bot_password new_token
           else
             message <- lift (py_get login_data "message" (PStr "Unknown error")) ;;
             raise (RuntimeError [Lit "Login failed: "; Val message]))
        (fun e =>
           logger ERROR [Lit "Login error: "; StrOf e] ;;
           raise e)
  end
with create_bot_password (depth : nat) (main_username : string)
    (main_password : pyval) (botname : string)
    {struct depth} : M (string * pyval) :=
  match depth with
  | O => raise RecursionError
  | S d =>
      try_except
        (login_token <- get_login_token ;;
         login d main_username main_password login_token ;;
         csrf_token <- get_csrf_token ;;
         response <- send remote (botpasswords_request csrf_token botname) ;;
         raise_for_status response ;;
         body <- json response ;;
         res <- lift (py_get body "botpasswords" (PDict [])) ;;
         status <- lift (py_get res "status" PNone) ;;
         if is_str status "success" then
           password <- lift (getitem res "password") ;;
           ret ((main_username ++ "@" ++ botname)%string, password)
         else
           message <- lift (py_get res "message" (PStr "Bot creation failed")) ;;
           raise (RuntimeError [Val message]))
        (fun e =>
           logger ERROR [Lit "Bot creation error: "; StrOf e] ;;
           raise e)
  end.

(** The dictionary [edit_page] returns. *)
Definition edit_success (revid : pyval) (title : string) : pyval :=
  PDict [("success", PBool true); ("revid", revid); ("page", PStr title)].

(** The [try] block of one iteration of [edit_page]. *)
Definition edit_attempt (title content summary : string) : M pyval :=
  csrf_token <- get_csrf_token ;;
  response <- send remote (edit_request title content csrf_token summary) ;;
  raise_for_status response ;;
  body <- json response ;;
  edit_data <- lift (py_get body "edit" (PDict [])) ;;
  res <- lift (py_get edit_data "result" PNone) ;;
  if is_str res "Success" then
    revid <- lift (py_get edit_data "newrevid" PNone) ;;
    ret (edit_success revid title)
  else
    message <- lift (py_get edit_data "message" (PStr "Edit failed")) ;;
    raise (RuntimeError [Val message]).

Definition rate_limited_retrying (attempt : Z) : list piece :=
  [Lit "Rate limited, retrying... (attempt "; Val (PInt (attempt + 1)); Lit ")"].

Definition edit_failed_retrying (attempt : Z) : list piece :=
  [Lit "Edit failed, retrying... (attempt "; Val (PInt (attempt + 1)); Lit ")"].

(** The [for attempt in ...] loop over the attempts still to make.  The
    loop running out is the function falling off its end: [None]. *)
Fixpoint edit_page_loop (title content summary : string) (retries : Z)
    (attempts : list Z) : M pyval :=
  match attempts with
  | [] => ret PNone
  | attempt :: rest =>
      try_except
        (edit_attempt title content summary)
        (fun e =>
           match e with
           | HTTPError status =>
               if (status =? 429) && (attempt <? retries) then
                 logger WARNING (rate_limited_retrying attempt) ;;
                 edit_page_loop title content summary retries rest
               else raise e
           | _ =>
               if attempt <? retries then
                 logger WARNING (edit_failed_retrying attempt) ;;
                 edit_page_loop title content summary retries rest
               else raise e
           end)
  end.

Definition edit_page (title content summary : string) (retries : Z) : M pyval :=
  edit_page_loop title content summary retries (range (retries + 1)).

(** *** The command line entry point *)

Record Args := mkArgs {
  arg_username : option string;
  arg_password : option string;
  arg_title : string;
  arg_template : string;
  arg_summary : string;
  arg_name : string;
  arg_desc : string;
  arg_features : list string
}.

(** [os.getenv("WIKI_USER")], [os.getenv("WIKI_PASS")] *)
Record Environ := mkEnviron {
  WIKI_USER : option string;
  WIKI_PASS : option string
}.

(** What [input] and [getpass] return when they are asked. *)
Record Console := mkConsole {
  typed_username : string;
  typed_password : string
}.

Definition nonempty (o : option string) : bool :=
  match o with
  | Some s => negb (String.eqb s "")
  | None => false
  end.

(** [a or b] *)
Definition py_or (a b : option string) : option string :=
  if nonempty a then a else b.

Definition get_user_credentials (env : Environ) (console : Console)
    : string * string :=
  let username :=
    match WIKI_USER env with
    | Some u => if nonempty (Some u) then u else strip (typed_username console)
    | None => strip (typed_username console)
    end in
  let password :=
    match WIKI_PASS env with
    | Some p => if nonempty (Some p) then p else strip (typed_password console)
    | None => strip (typed_password console)
    end in
  (username, password).

Section Main.

(** jinja2 on the template directory: the rendered text, or what it
    raised. *)
Variable render_template : string -> list (string * pyval) -> result string.

Definition render_content (template_name : string)
    (context : list (string * pyval)) : M string :=
  try_except
    (lift (render_template template_name context))
    (fun e =>
       logger ERROR [Lit "Template error: "; StrOf e] ;;
       raise (RuntimeError [Lit "Could not render template: "; StrOf e])).

Definition bot_password_created (final_username : string)
    (bot_password : pyval) : list piece :=
  [Lit "Bot password was automatically created. ";
   Lit "Use these credentials for future automated edits:"; Lit newline;
   Lit "Username: "; Val (PStr final_username); Lit newline;
   Lit "Password: "; Val bot_password].

(** The statements of [main] that follow the call of [login], inside
    the [with] block. *)
Definition main_publish (args : Args) (content final_username : string)
    (bot_password : pyval) : M unit :=
  res <- edit_page (arg_title args) content (arg_summary args) 2 ;;
  success <- lift (getitem res "success") ;;
  if truthy success then
    revid <- lift (getitem res "revid") ;;
    logger INFO
      [Lit "Successfully updated "; Val (PStr (arg_title args)); Lit newline;
       Lit "Revision ID: "; Val revid; Lit newline;
       Lit "Used account: "; Val (PStr final_username)] ;;
    if truthy bot_password then
      logger INFO (bot_password_created final_username bot_password)
    else ret tt
  else raise (RuntimeError [Lit "Publishing failed"]).

Definition main (recursion_limit : nat) (args : Args) (env : Environ)
    (console : Console) : M unit :=
  try_except
    (let username := py_or (arg_username args) (WIKI_USER env) in
     let password := py_or (arg_password args) (WIKI_PASS env) in
     let credentials :=
       match username, password with
       | Some u, Some p =>
           if nonempty username && nonempty password then (u, p)
           else get_user_credentials env console
       | _, _ => get_user_credentials env console
       end in
     let context :=
       [("page_title", PStr (arg_title args));
        ("product_name", PStr (arg_name args));
        ("description", PStr (arg_desc args));
        ("features", PList (map PStr (arg_features args)))] in
     content <- render_content (arg_template args) context ;;
     login_token <- get_login_token ;;
     ' (final_username, bot_password) <-
         login recursion_limit (fst credentials) (PStr (snd credentials))
           login_token ;;
     main_publish args content final_username bot_password)
    (fun e =>
       logger ERROR [Lit "Publishing failed: "; StrOf e] ;;
       raise e).

End Main.

End Session.

End WikiPublish.

(** ** psi_wiki_integration/wiki_client.py *)

Module WikiClient.

Definition WIKI_API_URL : string := "https://en.wikipedia.org/w/api.php".

Definition login_token_request : Request :=
  mkRequest GET WIKI_API_URL
    [("action", PStr "query"); ("meta", PStr "tokens");
     ("type", PStr "login"); ("format", PStr "json")].

Definition csrf_token_request : Request :=
  mkRequest GET WIKI_API_URL
    [("action", PStr "query"); ("meta", PStr "tokens"); ("format", PStr "json")].

Definition login_request (username password login_token : pyval) : Request :=
  mkRequest POST WIKI_API_URL
    [("action", PStr "login"); ("lgname", username);
     ("lgpassword", password); ("lgtoken", login_token);
     ("format", PStr "json")].

Definition edit_request (title : string) (text csrf_token : pyval)
    (summary : string) : Request :=
  mkRequest POST WIKI_API_URL
    [("action", PStr "edit"); ("title", PStr title); ("text", text);
     ("token", csrf_token); ("format", PStr "json");
     ("summary", PStr summary); ("bot", PBool true)].

Definition revisions_request (from_title : string) : Request :=
  mkRequest GET WIKI_API_URL
    [("action", PStr "query"); ("prop", PStr "revisions");
     ("titles", PStr from_title); ("rvslots", PStr "main");
     ("rvprop", PStr "content"); ("formatversion", PStr "2");
     ("format", PStr "json")].

Definition redirect_message : list piece :=
  [Lit "Sandbox page is a redirect. Remove '#REDIRECT' before moving to main space."].

Section Client.

Variable remote : Remote.

(** [os.getenv("WIKI_USERNAME")], [os.getenv("WIKI_BOT_PASSWORD")]: a
    string or [None]. *)
Variables WIKI_USERNAME WIKI_BOT_PASSWORD : pyval.

(** [str.strip] and [str.lower].  They follow the Unicode character
    database: [strip] removes, besides the ASCII blanks, U+0085, U+00A0,
    U+1680, U+2000 to U+200A, U+2028, U+2029, U+202F, U+205F and U+3000.
    No function on 8-bit characters reproduces that, so the two are taken
    as they are, whatever the encoding in which the content of a page is
    held. *)
Variables str_strip str_lower : string -> string.

Definition make_session : M unit :=
  r1 <- send remote login_token_request ;;
  body1 <- json r1 ;;
  query <- lift (getitem body1 "query") ;;
  tokens <- lift (getitem query "tokens") ;;
  login_token <- lift (getitem tokens "logintoken") ;;
  r2 <- send remote (login_request WIKI_USERNAME WIKI_BOT_PASSWORD login_token) ;;
  body2 <- json r2 ;;
  login_data <- lift (py_get body2 "login" (PDict [])) ;;
  res <- lift (py_get login_data "result" PNone) ;;
  if negb (is_str res "Success")
  then raise (RuntimeError [Lit "Wikipedia login failed"])
  else ret tt.

Definition get_csrf_token : M pyval :=
  r <- send remote csrf_token_request ;;
  body <- json r ;;
  query <- lift (getitem body "query") ;;
  tokens <- lift (getitem query "tokens") ;;
  lift (getitem tokens "csrftoken").

(** ["edit" in result and result["edit"]["result"] == "Success"] *)
Definition edit_reported_success (res : pyval) : M bool :=
  has_edit <- lift (py_contains res "edit") ;;
  if has_edit then
    edit <- lift (getitem res "edit") ;;
    outcome <- lift (getitem edit "result") ;;
    ret (is_str outcome "Success")
  else ret false.

Definition publish_page (title content summary : string) : M pyval :=
  make_session ;;
  csrf_token <- get_csrf_token ;;
  response <- send remote (edit_request title (PStr content) csrf_token summary) ;;
  res <- json response ;;
  ok <- edit_reported_success res ;;
  if ok then
    edit <- lift (getitem res "edit") ;;
    revid <- lift (getitem edit "newrevid") ;;
    ret (PDict [("status", PStr "success"); ("page", PStr title); ("revid", revid)])
  else raise (RuntimeError [Val res]).

(** Step 1 of [copy_page], up to the content of the sandbox page; the
    session and the CSRF token are obtained first. *)
Definition copy_page_fetch (from_title : string) : M (pyval * pyval) :=
  make_session ;;
  csrf_token <- get_csrf_token ;;
  response <- send remote (revisions_request from_title) ;;
  body <- json response ;;
  query <- lift (py_get body "query" (PDict [])) ;;
  pages <- lift (py_get query "pages" (PList [])) ;;
  fetched <-
    (if negb (truthy pages) then ret false
     else
       page <- lift (getitem0 pages) ;;
       lift (py_contains page "revisions")) ;;
  if negb fetched
  then raise (RuntimeError [Lit "Failed to fetch content from sandbox page"])
  else
    page <- lift (getitem0 pages) ;;
    revisions <- lift (getitem page "revisions") ;;
    revision <- lift (getitem0 revisions) ;;
    slots <- lift (getitem revision "slots") ;;
    main_slot <- lift (getitem slots "main") ;;
    content <- lift (getitem main_slot "content") ;;
    ret (csrf_token, content).

(** The safeguard of [copy_page] and its step 2. *)
Definition copy_page_write (from_title to_title reason : string)
    (csrf_token content : pyval) : M pyval :=
  is_redirect <-
    match content with
    | PStr s => ret (startswith (str_lower (str_strip s)) "#redirect")
    | _ => raise AttributeError
    end ;;
  if is_redirect then raise (RuntimeError redirect_message)
  else
    create_response <-
      send remote (edit_request to_title content csrf_token reason) ;;
    res <- json create_response ;;
    ok <- edit_reported_success res ;;
    if ok then
      ret (PDict [("status", PStr "success"); ("from", PStr from_title);
                  ("to", PStr to_title)])
    else raise (RuntimeError [Val res]).

Definition copy_page (from_title to_title reason : string) : M pyval :=
  ' (csrf_token, content) <- copy_page_fetch from_title ;;
  copy_page_write from_title to_title reason csrf_token content.

End Client.

End WikiClient.

(** ** api.py *)

Module Api.

(** The body of a publish request, as pydantic hands it to the route. *)
Record PublishRequest := mkPublishRequest {
  title : string;
  summary : option string;
  use_template : bool;
  template_name : option string;
  template_context : option (list (string * pyval))
}.

(** What the route gives back to the framework: the dictionary it returns
    or the [HTTPException] it raises. *)
Inductive Outcome :=
| Returned (v : pyval)
| HTTPException (status_code : Z) (detail : list piece).

(** [str(os.getenv(name))] inside an f-string *)
Definition getenv_str (value : option string) : string :=
  match value with
  | Some s => s
  | None => "None"
  end.

(** [os.getenv(name)] as a value *)
Definition getenv_val (value : option string) : pyval :=
  match value with
  | Some s => PStr s
  | None => PNone
  end.

(** [s.replace(' ', '_')] *)
Fixpoint replace_spaces (s : string) : string :=
  match s with
  | EmptyString => EmptyString
  | String c s' =>
      String (if Ascii.eqb c " " then "_"%char else c) (replace_spaces s')
  end.

Definition sandbox_title_of (wiki_username : option string) : string :=
  ("User:" ++ getenv_str wiki_username ++ "/sandbox")%string.

Definition sandbox_url (sandbox_title : string) : string :=
  ("https://en.wikipedia.org/wiki/" ++ replace_spaces sandbox_title)%string.

Section Route.

Variable remote : Remote.

(** [os.getenv("WIKI_USERNAME")] and [os.getenv("WIKI_BOT_PASSWORD")]. *)
Variables WIKI_USERNAME WIKI_BOT_PASSWORD : option string.

(** jinja2, as [wiki_client.render_content] calls it: the rendered text, or
    what it raised. *)
Variable render_template :
  option string -> list (string * pyval) -> result string.

(** [traceback.format_exc()] *)
Variable format_exc : exn -> string.

(** [render_content(request.template_name, **request.template_context)]:
    unpacking [None] raises, and so does a context key that names the
    positional parameter again. *)
Definition call_render_content (request : PublishRequest) : M string :=
  match template_context request with
  | None => raise TypeError
  | Some context =>
      match lookup "template_name" context with
      | Some _ => raise TypeError
      | None => lift (render_template (template_name request) context)
      end
  end.

(** The [try] block of the route. *)
Definition publish_to_sandbox_body (request : PublishRequest) : M pyval :=
  logger INFO [Lit "Publishing request to sandbox for: "; Val (PStr (title request))] ;;
  content <- call_render_content request ;;
  let sandbox_title := sandbox_title_of WIKI_USERNAME in
  logger INFO [Lit "Publishing to sandbox: "; Val (PStr sandbox_title)] ;;
  res <- WikiClient.publish_page remote (getenv_val WIKI_USERNAME)
           (getenv_val WIKI_BOT_PASSWORD) sandbox_title content
           (match summary request with
            | Some s => if String.eqb s "" then "Staged content in sandbox" else s
            | None => "Staged content in sandbox"
            end) ;;
  status <- lift (py_get res "status" PNone) ;;
  if negb (is_str status "success")
  then raise (RuntimeError [Lit "Failed to publish to sandbox"])
  else
    logger INFO [Lit "Successfully published to sandbox."] ;;
    ret (PDict [("status", PStr "success"); ("page", PStr sandbox_title);
                ("url", PStr (sandbox_url sandbox_title))]).

Definition publish_to_sandbox_only (request : PublishRequest)
    : list Event -> Outcome * list Event :=
  fun h =>
    match publish_to_sandbox_body request h with
    | (Ok v, d) => (Returned v, d)
    | (Raise e, d) =>
        (HTTPException 500 [StrOf e],
         d ++ [Log ERROR [Lit "Error during sandbox publish: ";
                          Lit (format_exc e)]])
    end.

End Route.

End Api.

(** ** Remotes to run the program against *)

Definition is_http (ev : Event) : bool :=
  match ev with
  | Http _ _ => true
  | Log _ _ => false
  end.

(** The number of HTTP exchanges in a history. *)
Definition exchanges (h : list Event) : nat := List.length (filter is_http h).

(** A remote that answers the n-th request of the run with the n-th reply
    of a script, and with [otherwise] once the script is over. *)
Definition scripted (script : list Reply) (otherwise : Reply) : Remote :=
  fun h _ => nth (exchanges h) script otherwise.

(** A remote no request reaches. *)
Definition unreachable : Remote := fun _ _ => Refused.

Definition ok_json (v : pyval) : Reply := Answer (mkResponse 200 (Some v)).

Definition login_token_reply (t : string) : Reply :=
  ok_json (PDict [("query", PDict [("tokens", PDict [("logintoken", PStr t)])])]).

Definition csrf_token_reply (t : string) : Reply :=
  ok_json (PDict [("query", PDict [("tokens", PDict [("csrftoken", PStr t)])])]).

Definition login_success_reply : Reply :=
  ok_json (PDict [("login", PDict [("result", PStr "Success")])]).

Definition wrong_pass_reply : Reply :=
  ok_json (PDict [("login", PDict [("result", PStr "Failed");
                                     ("code", PStr "WrongPass")])]).

Definition bot_created_reply (secret : string) : Reply :=
  ok_json (PDict [("botpasswords", PDict [("status", PStr "success");
                                            ("password", PStr secret)])]).

Definition edit_success_reply (revid : Z) : Reply :=
  ok_json (PDict [("edit", PDict [("result", PStr "Success");
                                    ("newrevid", PInt revid)])]).

Definition edit_rejected_reply (message : string) : Reply :=
  ok_json (PDict [("edit", PDict [("result", PStr "Failure");
                                    ("message", PStr message)])]).

Definition http_status_reply (status : Z) : Reply :=
  Answer (mkResponse status None).

(** Scenario 3 of the spec: rate limited once, then accepted. *)
Definition rate_limited_then_fine : Remote :=
  scripted [csrf_token_reply "c1"; http_status_reply 429;
            csrf_token_reply "c2"; edit_success_reply 12345] Refused.

(** The first submission meets a server error. *)
Definition server_error_first : Remote :=
  scripted [csrf_token_reply "c1"; http_status_reply 500] Refused.

(** One edit is rejected with a message; after that nothing answers. *)
Definition rejected_then_down : Remote :=
  scripted [csrf_token_reply "c1"; edit_rejected_reply "ratelimited"] Refused.

(** The edit is accepted at once. *)
Definition accepts_edit : Remote :=
  scripted [csrf_token_reply "c1"; edit_success_reply 12345] Refused.

(** Scenario 1 of the spec: the primary login is accepted. *)
Definition accepts_login : Remote := scripted [login_success_reply] Refused.

(** Provisioning in isolation: token, primary login, CSRF token, grant. *)
Definition grants_bot_password : Remote :=
  scripted [login_token_reply "t1"; login_success_reply;
            csrf_token_reply "c0"; bot_created_reply "s3cret"] Refused.

Definition revisions_reply (content : string) : Reply :=
  ok_json
    (PDict [("query", PDict [("pages", PList [PDict [("revisions", PList [PDict
       [("slots", PDict [("main", PDict [("content", PStr content)])])]])]])])]).

(** Scenario 5 of the spec: the sandbox page is a redirect. *)
Definition sandbox_is_redirect : Remote :=
  scripted [login_token_reply "t1"; login_success_reply; csrf_token_reply "c0";
            revisions_reply "#REDIRECT [[Target]]"] Refused.

(** The identity whose password the remote never accepts. *)
Definition stubborn : Remote :=
  fun _ rq =>
    match meth rq with
    | GET => login_token_reply "t"
    | POST => wrong_pass_reply
    end.

(** Scenario 2 of the spec, followed by a remote that stops answering:
    wrong password, provisioning, login with the scoped credential. *)
Definition provisions_then_down : Remote :=
  scripted [login_token_reply "t0"; wrong_pass_reply;
            login_token_reply "t1"; login_success_reply;
            csrf_token_reply "c0"; bot_created_reply "s3cret";
            login_token_reply "t2"; login_success_reply] Refused.

(** A command line that names the account, and a template that renders. *)
Definition cli_args : WikiPublish.Args :=
  WikiPublish.mkArgs (Some "alice") (Some "pw") "User:alice/sandbox"
    WikiPublish.DEFAULT_TEMPLATE WikiPublish.DEFAULT_SUMMARY
    "Widget" "A widget" [].

Definition no_environ : WikiPublish.Environ := WikiPublish.mkEnviron None None.

Definition silent_console : WikiPublish.Console := WikiPublish.mkConsole "" "".

Definition renders (text : string)
    : string -> list (string * pyval) -> result string :=
  fun _ _ => Ok text.

(** ** What a run shows *)

Definition field (k : string) (rq : Request) : option pyval := lookup k (fields rq).

Definition field_is (k : string) (rq : Request) (s : string) : bool :=
  match field k rq with
  | Some v => is_str v s
  | None => false
  end.

(** A WriteToken fetch: the token query that names no token type. *)
Definition is_csrf_fetch (ev : Event) : bool :=
  match ev with
  | Http rq _ =>
      match meth rq, field "type" rq with
      | GET, None => field_is "action" rq "query" && field_is "meta" rq "tokens"
      | _, _ => false
      end
  | Log _ _ => false
  end.

(** An edit submission. *)
Definition is_edit_post (ev : Event) : bool :=
  match ev with
  | Http rq _ =>
      match meth rq with
      | POST => field_is "action" rq "edit"
      | GET => false
      end
  | Log _ _ => false
  end.

Definition csrf_fetches (d : list Event) : nat := List.length (filter is_csrf_fetch d).

Definition edit_posts (d : list Event) : nat := List.length (filter is_edit_post d).

Definition status_ok (rs : Response) : bool :=
  negb ((400 <=? status_code rs) && (status_code rs <? 600)).

(** The [edit] entry of a body, as [body.get("edit", {})] reads it. *)
Definition edit_envelope (rp : Reply) : option (list (string * pyval)) :=
  match rp with
  | Answer rs =>
      if status_ok rs then
        match json_body rs with
        | Some (PDict top) =>
            match lookup "edit" top with
            | Some (PDict e) => Some e
            | Some _ => None
            | None => Some []
            end
        | _ => None
        end
      else None
  | Refused => None
  end.

(** The remote reports [edit.result == "Success"]. *)
Definition success_envelope (rp : Reply) : bool :=
  match edit_envelope rp with
  | Some e =>
      match lookup "result" e with
      | Some v => is_str v "Success"
      | None => false
      end
  | None => false
  end.

(** The message of an envelope that reports anything else. *)
Definition rejection_message (rp : Reply) : option pyval :=
  match edit_envelope rp with
  | Some e =>
      if success_envelope rp then None
      else Some (match lookup "message" e with
                 | Some m => m
                 | None => PStr "Edit failed"
                 end)
  | None => None
  end.

Definition edit_succeeded (ev : Event) : bool :=
  match ev with
  | Http rq rp => is_edit_post ev && success_envelope rp
  | Log _ _ => false
  end.


(** The [login] entry of a body, as [body.get("login", {})] reads it. *)
Definition login_envelope (rp : Reply) : option (list (string * pyval)) :=
  match rp with
  | Answer rs =>
      if status_ok rs then
        match json_body rs with
        | Some (PDict top) =>
            match lookup "login" top with
            | Some (PDict e) => Some e
            | Some _ => None
            | None => Some []
            end
        | _ => None
        end
      else None
  | Refused => None
  end.

(** The remote reports [login.result == "Success"]. *)
Definition login_accepted (rp : Reply) : bool :=
  match login_envelope rp with
  | Some e =>
      match lookup "result" e with
      | Some v => is_str v "Success"
      | None => false
      end
  | None => false
  end.

(** [login] announces each call of [create_bot_password] in the log. *)
Definition is_provisioning (ev : Event) : bool :=
  match ev with
  | Log INFO [Lit s] => String.eqb s "Attempting bot password creation..."
  | _ => false
  end.

Definition provisionings (d : list Event) : nat :=
  List.length (filter is_provisioning d).

(** The remote granted a bot password. *)
Definition bot_password_granted (ev : Event) : bool :=
  match ev with
  | Http rq (Answer rs) =>
      match meth rq, json_body rs with
      | POST, Some (PDict top) =>
          field_is "action" rq "botpasswords" && status_ok rs
          && match lookup "botpasswords" top with
             | Some (PDict e) =>
                 match lookup "status" e with
                 | Some v => is_str v "success"
                 | None => false
                 end
             | _ => false
             end
      | _, _ => false
      end
  | _ => false
  end.

(** The record with which [main] hands the new credentials to its caller. *)
Definition is_credentials_report (ev : Event) : bool :=
  match ev with
  | Log INFO (Lit s :: _) =>
      String.eqb s "Bot password was automatically created. "
  | _ => false
  end.

Definition credentials_reported (d : list Event) : bool :=
  existsb is_credentials_report d.

(** A log record interpolates the string [s]. *)
Definition mentions (s : string) (ev : Event) : bool :=
  match ev with
  | Log _ msg =>
      existsb (fun p => match p with
                        | Val v => is_str v s
                        | _ => false
                        end) msg
  | Http _ _ => false
  end.

(** ** The attempt loop, case by case *)

Import WikiPublish.

Definition csrf_failure : exn := RuntimeError [Lit "Could not retrieve CSRF token"].

(** What one attempt makes of the reply to its edit submission. *)
Definition edit_verdict (title : string) (rp : Reply) : result pyval :=
  match rp with
  | Refused => Raise ConnectionError
  | Answer rs =>
      if status_ok rs then
        match json_body rs with
        | None => Raise JSONDecodeError
        | Some body =>
            match py_get body "edit" (PDict []) with
            | Raise e => Raise e
            | Ok edit_data =>
                match py_get edit_data "result" PNone with
                | Raise e => Raise e
                | Ok res =>
                    if is_str res "Success" then
                      match py_get edit_data "newrevid" PNone with
                      | Ok revid => Ok (edit_success revid title)
                      | Raise e => Raise e
                      end
                    else
                      match py_get edit_data "message" (PStr "Edit failed") with
                      | Ok message => Raise (RuntimeError [Val message])
                      | Raise e => Raise e
                      end
                end
            end
        end
      else Raise (HTTPError (status_code rs))
  end.

(** The test the two handlers of [edit_page] make before [continue]. *)
Definition retryable (retries attempt : Z) (e : exn) : bool :=
  match e with
  | HTTPError status => (status =? 429) && (attempt <? retries)
  | _ => attempt <? retries
  end.

(** The warning they log when they continue. *)
Definition retry_record (attempt : Z) (e : exn) : Event :=
  match e with
  | HTTPError _ => Log WARNING (rate_limited_retrying attempt)
  | _ => Log WARNING (edit_failed_retrying attempt)
  end.

(** The attempts still to make, at any point of the loop over
    [range(retries + 1)]: consecutive numbers that end with [retries]. *)
Definition upto (retries : Z) (attempts : list Z) : Prop :=
  exists k n, attempts = map Z.of_nat (seq k n)
              /\ Z.of_nat (k + n) = retries + 1.

(** ** The rest of the code: what a run shows *)

(** The token a reply carries under [query.tokens.<name>], as the token
    fetches of wiki_publish.py read it: the status must not be an error. *)
Definition token_in (name : string) (rp : Reply) : option pyval :=
  match rp with
  | Answer rs =>
      if status_ok rs then
        match json_body rs with
        | Some body =>
            match getitem body "query" with
            | Ok query =>
                match getitem query "tokens" with
                | Ok tokens =>
                    match getitem tokens name with
                    | Ok t => Some t
                    | Raise _ => None
                    end
                | Raise _ => None
                end
            | Raise _ => None
            end
        | None => None
        end
      else None
  | Refused => None
  end.

Definition login_token_failure : exn :=
  RuntimeError [Lit "Could not retrieve login token"].

(** Every event a computation emits, from any history, satisfies [P]. *)
Definition emits (P : Event -> Prop) {A} (m : M A) : Prop :=
  forall h, Forall P (snd (m h)).

(** The four requests the session authenticator makes. *)
Inductive session_request : Request -> Prop :=
| sr_login_token : session_request login_token_request
| sr_csrf_token : session_request csrf_token_request
| sr_login username password token :
    session_request (login_request username password token)
| sr_botpasswords csrf_token botname :
    session_request (botpasswords_request csrf_token botname).

(** A request goes to the API endpoint and asks for JSON. *)
Definition addressed_to_api (ev : Event) : Prop :=
  match ev with
  | Http rq _ =>
      url rq = WIKI_API_URL /\ field "format" rq = Some (PStr "json")
  | Log _ _ => True
  end.

Definition is_warning (ev : Event) : bool :=
  match ev with
  | Log WARNING _ => true
  | _ => false
  end.

Definition warnings (d : list Event) : nat := List.length (filter is_warning d).

(** The command line with another [--username]. *)
Definition with_username (u : option string) (args : Args) : Args :=
  mkArgs u (arg_password args) (arg_title args) (arg_template args)
    (arg_summary args) (arg_name args) (arg_desc args) (arg_features args).

(** The context [main] renders the template with. *)
Definition main_context (args : Args) : list (string * pyval) :=
  [("page_title", PStr (arg_title args));
   ("product_name", PStr (arg_name args));
   ("description", PStr (arg_desc args));
   ("features", PList (map PStr (arg_features args)))].

(** The token a reply carries, as wiki_client.py reads it: the status is
    not looked at. *)
Definition client_token_in (name : string) (rs : Response) : option pyval :=
  match json_body rs with
  | Some body =>
      match getitem body "query" with
      | Ok query =>
          match getitem query "tokens" with
          | Ok tokens =>
              match getitem tokens name with
              | Ok t => Some t
              | Raise _ => None
              end
          | Raise _ => None
          end
      | Raise _ => None
      end
  | None => None
  end.

(** [body.get("login", {}).get("result") == "Success"], whatever the
    status. *)
Definition client_login_accepted (rs : Response) : bool :=
  match json_body rs with
  | Some (PDict top) =>
      match lookup "login" top with
      | Some (PDict e) =>
          match lookup "result" e with
          | Some v => is_str v "Success"
          | None => false
          end
      | _ => false
      end
  | _ => false
  end.

(** A server error whose body still reports an accepted login. *)
Definition login_success_with_status (status : Z) : Reply :=
  Answer (mkResponse status
            (Some (PDict [("login", PDict [("result", PStr "Success")])]))).

(** wiki_client.py against a wiki that accepts everything; the login reply
    comes with status 500. *)
Definition client_accepts_all : Remote :=
  scripted [login_token_reply "t1"; login_success_with_status 500;
            csrf_token_reply "c0"; edit_success_reply 7] Refused.

(** The sandbox page holds an article. *)
Definition sandbox_is_article : Remote :=
  scripted [login_token_reply "t1"; login_success_reply; csrf_token_reply "c0";
            revisions_reply "An article."; edit_success_reply 8] Refused.

(** The grant is refused with a message. *)
Definition refuses_bot_password : Remote :=
  scripted [login_token_reply "t1"; login_success_reply; csrf_token_reply "c0";
            ok_json (PDict [("botpasswords",
                             PDict [("status", PStr "error");
                                    ("message", PStr "too many bot passwords")])])]
    Refused.

(** The login is refused for another reason than the password. *)
Definition throttles_login : Remote :=
  scripted [ok_json (PDict [("login", PDict [("result", PStr "Failed");
                                              ("code", PStr "Throttled");
                                              ("message", PStr "wait")])])]
    Refused.

Definition fails_to_render (e : exn)
    : string -> list (string * pyval) -> result string :=
  fun _ _ => Raise e.

Definition client_renders (text : string)
    : option string -> list (string * pyval) -> result string :=
  fun _ _ => Ok text.

Definition no_traceback : exn -> string := fun _ => "".

Definition sandbox_request : Api.PublishRequest :=
  Api.mkPublishRequest "Main Article" None true (Some "product_wiki.txt")
    (Some [("product_name", PStr "Widget")]).

(** An event of the session authenticator: a log record or one of its
    four requests. *)
Definition session_event (ev : Event) : Prop :=
  match ev with
  | Http rq _ => session_request rq
  | Log _ _ => True
  end.

(** A computation returns exactly when the remote accepted an edit during
    it. *)
Definition accepting {A} (m : M A) : Prop :=
  forall h,
    (exists a, fst (m h) = Ok a) <-> existsb edit_succeeded (snd (m h)) = true.

(** An edit, if the event is one, is made to the page [t]. *)
Definition targets (t : string) (ev : Event) : Prop :=
  match ev with
  | Http rq _ => is_edit_post ev = true -> field "title" rq = Some (PStr t)
  | Log _ _ => True
  end.

(** The dictionary the route returns. *)
Definition sandbox_published (wiki_username : option string) : pyval :=
  PDict [("status", PStr "success");
         ("page", PStr (Api.sandbox_title_of wiki_username));
         ("url", PStr (Api.sandbox_url (Api.sandbox_title_of wiki_username)))].

(** A computation submits at most [n] edits, from any history. *)
Definition submits_at_most (n : nat) {A} (m : M A) : Prop :=
  forall h, (edit_posts (snd (m h)) <= n)%nat.

(** An edit, if the event is one, comes with a summary that is not empty:
    the one the request wanted, or the default one when the request wanted
    none or an empty one. *)
Definition summarised (wanted : option string) (ev : Event) : Prop :=
  match ev with
  | Http rq _ =>
      is_edit_post ev = true ->
      exists s,
        field "summary" rq = Some (PStr s)
        /\ s <> ""
        /\ (forall w, wanted = Some w -> w <> "" -> s = w)
        /\ (wanted = None \/ wanted = Some "" ->
            s = "Staged content in sandbox")
  | Log _ _ => True
  end.

(** Scenario 2 of the spec followed by a publish that succeeds at once. *)
Definition provisions_then_publishes : Remote :=
  scripted [login_token_reply "t0"; wrong_pass_reply;
            login_token_reply "t1"; login_success_reply;
            csrf_token_reply "c0"; bot_created_reply "s3cret";
            login_token_reply "t2"; login_success_reply;
            csrf_token_reply "c1"; edit_success_reply 12345] Refused.

(** U+3000, the ideographic space, as UTF-8 holds it. *)
Definition ideographic_space : string :=
  String (ascii_of_nat 227)
    (String (ascii_of_nat 128) (String (ascii_of_nat 128) EmptyString)).

(** What [str.strip] does to UTF-8 text that is ASCII but for ideographic
    spaces in front of it: those go, then the ASCII blanks. *)
Fixpoint strip_ideographic (s : string) : string :=
  match s with
  | String a (String b (String c rest)) =>
      if (N_of_ascii a =? 227)%N && (N_of_ascii b =? 128)%N
         && (N_of_ascii c =? 128)%N
      then strip_ideographic rest
      else strip s
  | _ => strip s
  end.

(** The sandbox page is a redirect that starts with an ideographic space. *)
Definition sandbox_is_wide_redirect : Remote :=
  scripted [login_token_reply "t1"; login_success_reply; csrf_token_reply "c0";
            revisions_reply (ideographic_space ++ "#REDIRECT [[Target]]")]
    Refused.

(** ** Proof tools *)

(** Case analysis on the innermost scrutinee of the goal. *)
Ltac run_step :=
  match goal with
  | |- context [match ?x with _ => _ end] =>
      lazymatch x with
      | context [match _ with _ => _ end] => fail
      | _ => first [ is_var x; destruct x
                   | let E := fresh "E" in destruct x eqn:E ]
      end
  end.

Lemma bind_ok {A B} (m : M A) (f : A -> M B) h a d1 :
  m h = (Ok a, d1) ->
  bind m f h = (fst (f a (h ++ d1)), d1 ++ snd (f a (h ++ d1))).
Proof. unfold bind. intros ->. destruct (f a (h ++ d1)); reflexivity. Qed.

Lemma bind_raise {A B} (m : M A) (f : A -> M B) h e d1 :
  m h = (Raise e, d1) -> bind m f h = (Raise e, d1).
Proof. unfold bind. intros ->. reflexivity. Qed.

Lemma bind_inv_ok {A B} (m : M A) (f : A -> M B) h b d :
  bind m f h = (Ok b, d) ->
  exists a d1 d2, m h = (Ok a, d1) /\ f a (h ++ d1) = (Ok b, d2) /\ d = d1 ++ d2.
Proof.
  unfold bind. destruct (m h) as [[a|e] d1]; [|discriminate].
  destruct (f a (h ++ d1)) as [r d2] eqn:Hf. intros H. injection H as -> <-.
  eauto 6.
Qed.

Lemma lift_inv_ok {A} (r : result A) h a d :
  lift r h = (Ok a, d) -> r = Ok a /\ d = [].
Proof. unfold lift. intros H. injection H as -> <-. auto. Qed.

Module PublishFacts.

Section WithRemote.

Variable remote : Remote.

(** A token fetch is one exchange; it yields the token, or the one
    RuntimeError after one log record. *)
Lemma get_csrf_token_cases h :
  (exists rs t,
      get_csrf_token remote h = (Ok t, [Http csrf_token_request (Answer rs)]))
  \/ (exists rp e,
      get_csrf_token remote h
      = (Raise csrf_failure,
         [Http csrf_token_request rp;
          Log ERROR [Lit "CSRF token fetch failed: "; StrOf e]])).
Proof.
  unfold get_csrf_token, try_except, bind, send, raise_for_status, json, lift,
    logger, raise, ret, getitem, csrf_failure.
  repeat (run_step; cbn [app fst snd]);
    solve [ left; eauto | right; eauto ].
Qed.

(** One attempt: a failed token fetch and nothing else, or a token fetch
    followed at once by the edit submission that carries its token. *)
Lemma edit_attempt_cases title content summary h :
  (exists rp e,
      get_csrf_token remote h
      = (Raise csrf_failure,
         [Http csrf_token_request rp;
          Log ERROR [Lit "CSRF token fetch failed: "; StrOf e]])
      /\ edit_attempt remote title content summary h
         = (Raise csrf_failure,
            [Http csrf_token_request rp;
             Log ERROR [Lit "CSRF token fetch failed: "; StrOf e]]))
  \/ (exists rs t rp,
      get_csrf_token remote h = (Ok t, [Http csrf_token_request (Answer rs)])
      /\ edit_attempt remote title content summary h
         = (edit_verdict title rp,
            [Http csrf_token_request (Answer rs);
             Http (edit_request title content t summary) rp])).
Proof.
  destruct (get_csrf_token_cases h) as [(rs & t & Ht) | (rp & e & Hf)].
  - right. exists rs, t.
    exists (remote (h ++ [Http csrf_token_request (Answer rs)])
              (edit_request title content t summary)).
    split; [exact Ht|].
    unfold edit_attempt. rewrite (bind_ok _ _ _ _ _ Ht).
    unfold edit_verdict, status_ok, bind, send, raise_for_status, json, lift,
      raise, ret, py_get.
    repeat (run_step; cbn [app fst snd negb]); try reflexivity; try discriminate.
  - left. exists rp, e. split; [exact Hf|].
    unfold edit_attempt. apply bind_raise. exact Hf.
Qed.

Lemma edit_verdict_success title rp :
  success_envelope rp = true ->
  exists revid, edit_verdict title rp = Ok (edit_success revid title).
Proof.
  unfold success_envelope, edit_envelope, edit_verdict, py_get.
  repeat (run_step; cbn [negb]); intros; try discriminate; eauto;
    cbn [lookup] in *; congruence.
Qed.

Lemma edit_verdict_failure title rp :
  success_envelope rp = false ->
  exists e, edit_verdict title rp = Raise e
            /\ forall m, rejection_message rp = Some m -> e = RuntimeError [Val m].
Proof.
  unfold rejection_message. intros Hs. rewrite Hs. revert Hs.
  unfold success_envelope, edit_envelope, edit_verdict, py_get.
  repeat (run_step; cbn [negb lookup is_str] in * );
    intros; try discriminate; try congruence;
    eexists; (split; [reflexivity|]); intros; congruence.
Qed.

Lemma edit_verdict_ok title rp v :
  edit_verdict title rp = Ok v ->
  success_envelope rp = true /\ exists revid, v = edit_success revid title.
Proof.
  intros Hv. destruct (success_envelope rp) eqn:Hs.
  - destruct (edit_verdict_success title rp Hs) as [revid Hr].
    split; [reflexivity|]. exists revid. congruence.
  - destruct (edit_verdict_failure title rp Hs) as (e & He & _). congruence.
Qed.

Lemma edit_page_loop_step title content summary retries attempt rest h :
  edit_page_loop remote title content summary retries (attempt :: rest) h
  = match edit_attempt remote title content summary h with
    | (Ok v, d) => (Ok v, d)
    | (Raise e, d) =>
        if retryable retries attempt e then
          let next :=
            edit_page_loop remote title content summary retries rest
              ((h ++ d) ++ [retry_record attempt e]) in
          (fst next, d ++ retry_record attempt e :: snd next)
        else (Raise e, d)
    end.
Proof.
  cbn [edit_page_loop]. unfold try_except.
  destruct (edit_attempt remote title content summary h) as [[v|e] d];
    [reflexivity|].
  destruct e; cbn [retryable retry_record];
    repeat (run_step; cbn [app fst snd]);
    unfold bind, logger, raise in *; cbn [app fst snd] in *;
    repeat match goal with
           | H : (let (_, _) := ?x in _) = _ |- _ => destruct x eqn:?
           | H : (_, _) = (_, _) |- _ => inversion H; subst; clear H
           end;
    try rewrite app_nil_r; try reflexivity; try discriminate.
Qed.

Lemma csrf_fetches_app d1 d2 :
  csrf_fetches (d1 ++ d2) = (csrf_fetches d1 + csrf_fetches d2)%nat.
Proof. unfold csrf_fetches. rewrite filter_app, length_app. reflexivity. Qed.

Lemma edit_posts_app d1 d2 :
  edit_posts (d1 ++ d2) = (edit_posts d1 + edit_posts d2)%nat.
Proof. unfold edit_posts. rewrite filter_app, length_app. reflexivity. Qed.

Lemma retry_record_is_log attempt e :
  exists msg, retry_record attempt e = Log WARNING msg.
Proof. destruct e; cbn; eauto. Qed.

(** Every attempt fetches exactly one token. *)
Lemma edit_attempt_fetches title content summary h :
  csrf_fetches (snd (edit_attempt remote title content summary h)) = 1%nat.
Proof.
  destruct (edit_attempt_cases title content summary h)
    as [(rp & e & _ & ->) | (rs & t & rp & _ & ->)]; reflexivity.
Qed.

Lemma edit_page_loop_fetches title content summary retries attempts :
  forall h,
    (csrf_fetches (snd (edit_page_loop remote title content summary retries
                          attempts h))
     <= List.length attempts)%nat.
Proof.
  induction attempts as [|a rest IH]; intros h.
  - cbn. lia.
  - rewrite edit_page_loop_step.
    pose proof (edit_attempt_fetches title content summary h) as H1.
    destruct (edit_attempt remote title content summary h) as [[v|e] d];
      cbn [snd] in *.
    + cbn [List.length]. lia.
    + destruct (retryable retries a e); cbn [snd List.length].
      * destruct (retry_record_is_log a e) as [msg ->].
        rewrite csrf_fetches_app.
        specialize (IH ((h ++ d) ++ [Log WARNING msg])).
        unfold csrf_fetches in *. cbn [filter is_csrf_fetch]. lia.
      * lia.
Qed.

Lemma length_range n : List.length (range n) = Z.to_nat n.
Proof. unfold range. rewrite length_map, length_seq. reflexivity. Qed.

Lemma upto_range retries : 0 <= retries -> upto retries (range (retries + 1)).
Proof.
  intros H. exists 0%nat, (Z.to_nat (retries + 1)). split; [reflexivity|]. lia.
Qed.

Lemma range_nonempty retries : 0 <= retries -> range (retries + 1) <> [].
Proof.
  intros H Hnil. apply (f_equal (@List.length Z)) in Hnil.
  rewrite length_range in Hnil. cbn in Hnil. lia.
Qed.

Lemma upto_cons retries a rest :
  upto retries (a :: rest) ->
  ((a <? retries) = true /\ upto retries rest /\ rest <> [])
  \/ ((a <? retries) = false /\ rest = []).
Proof.
  intros (k & n & Heq & Hk). destruct n as [|n]; [discriminate|].
  cbn [seq map] in Heq. injection Heq as -> ->.
  destruct n as [|n].
  - right. split; [|reflexivity]. apply Z.ltb_ge. lia.
  - left. split; [apply Z.ltb_lt; lia|]. split.
    + exists (S k), (S n). split; [reflexivity|]. lia.
    + cbn. discriminate.
Qed.

(** Over such attempts the loop never runs out: it returns the success
    dictionary or raises. *)
Lemma edit_page_loop_exits title content summary retries attempts :
  forall h,
    attempts <> [] -> upto retries attempts ->
    (exists revid,
        fst (edit_page_loop remote title content summary retries attempts h)
        = Ok (edit_success revid title))
    \/ (exists e,
        fst (edit_page_loop remote title content summary retries attempts h)
        = Raise e).
Proof.
  induction attempts as [|a rest IH]; intros h Hne Hup; [congruence|].
  rewrite edit_page_loop_step.
  destruct (edit_attempt_cases title content summary h)
    as [(rp & e & _ & ->) | (rs & t & rp & _ & ->)].
  - destruct (upto_cons _ _ _ Hup) as [(Hlt & Hup' & Hne') | (Hge & ->)];
      cbn [retryable csrf_failure]; rewrite ?Hlt, ?Hge; cbn [fst].
    + apply IH; assumption.
    + right. eauto.
  - destruct (edit_verdict title rp) as [v|e] eqn:Hv.
    + left. destruct (edit_verdict_ok _ _ _ Hv) as (_ & revid & ->).
      cbn [fst]. eauto.
    + destruct (retryable retries a e) eqn:Hr; cbn [fst]; [|right; eauto].
      destruct (upto_cons _ _ _ Hup) as [(Hlt & Hup' & Hne') | (Hge & ->)].
      * apply IH; assumption.
      * destruct e; cbn [retryable] in Hr; rewrite Hge in Hr;
          rewrite ?andb_false_r in Hr; discriminate.
Qed.

(** When no token can be fetched, every attempt is made and none submits
    an edit. *)
Lemma edit_page_loop_no_token title content summary retries attempts :
  (forall h', exists e d', get_csrf_token remote h' = (Raise e, d')) ->
  forall h,
    upto retries attempts ->
    let run := edit_page_loop remote title content summary retries attempts h in
    csrf_fetches (snd run) = List.length attempts
    /\ edit_posts (snd run) = 0%nat
    /\ (attempts <> [] -> fst run = Raise csrf_failure).
Proof.
  intros Hfail. induction attempts as [|a rest IH]; intros h Hup.
  - cbn. repeat split. congruence.
  - cbv zeta. rewrite edit_page_loop_step.
    destruct (edit_attempt_cases title content summary h)
      as [(rp & e & _ & ->) | (rs & t & rp & Ht & _)].
    + destruct (upto_cons _ _ _ Hup) as [(Hlt & Hup' & Hne') | (Hge & ->)];
        cbn [retryable csrf_failure]; rewrite ?Hlt, ?Hge.
      * specialize (IH
          ((h ++ [Http csrf_token_request rp;
                  Log ERROR [Lit "CSRF token fetch failed: "; StrOf e]])
             ++ [retry_record a csrf_failure]) Hup').
        cbv zeta in IH. destruct IH as (IH1 & IH2 & IH3).
        cbn [fst snd]. rewrite csrf_fetches_app, edit_posts_app.
        unfold csrf_fetches, edit_posts in *.
        cbn [retry_record csrf_failure] in *.
        cbn [filter is_csrf_fetch is_edit_post List.length].
        rewrite IH1, IH2. repeat split. intros _. apply IH3. assumption.
      * cbn. repeat split.
    + destruct (Hfail h) as (e & d' & He). congruence.
Qed.

Lemma snoc_tail {A} (pre : list A) x tl d' y :
  pre ++ x :: tl = d' ++ [y] ->
  (tl = [] /\ x = y) \/ exists tl', tl = tl' ++ [y].
Proof.
  destruct tl as [|z tl0 _] using rev_ind; intros H.
  - left. split; [reflexivity|].
    apply app_inj_tail in H. tauto.
  - right. exists tl0.
    change (pre ++ x :: tl0 ++ [z]) with (pre ++ (x :: tl0) ++ [z]) in H.
    rewrite app_assoc in H. apply app_inj_tail in H. destruct H as [_ ->].
    reflexivity.
Qed.

(** An attempt that returns has seen the Success envelope. *)
Lemma edit_attempt_returns title content summary h v d :
  edit_attempt remote title content summary h = (Ok v, d) ->
  (exists revid, v = edit_success revid title)
  /\ existsb edit_succeeded d = true.
Proof.
  intros Ha.
  destruct (edit_attempt_cases title content summary h)
    as [(rp & e & _ & Hc) | (rs & t & rp & _ & Hc)];
    rewrite Hc in Ha; [discriminate|].
  injection Ha as Hv <-.
  destruct (edit_verdict_ok _ _ _ Hv) as (Hs & revid & ->).
  split; [eauto|].
  cbn [existsb edit_succeeded]. rewrite Hs. reflexivity.
Qed.

(** An attempt that raises has seen none; if its last event is a
    rejection envelope, the error carries the message of that envelope. *)
Lemma edit_attempt_raises title content summary h e d :
  edit_attempt remote title content summary h = (Raise e, d) ->
  existsb edit_succeeded d = false
  /\ d <> []
  /\ forall d' rq rp m,
      d = d' ++ [Http rq rp] -> rejection_message rp = Some m ->
      e = RuntimeError [Val m].
Proof.
  intros Ha.
  destruct (edit_attempt_cases title content summary h)
    as [(rp & e' & _ & Hc) | (rs & t & rp & _ & Hc)];
    rewrite Hc in Ha; injection Ha as He <-.
  - split; [reflexivity|]. split; [discriminate|].
    intros d' rq rp' m Hd _.
    change [Http csrf_token_request rp;
            Log ERROR [Lit "CSRF token fetch failed: "; StrOf e']]
      with ([Http csrf_token_request rp]
              ++ [Log ERROR [Lit "CSRF token fetch failed: "; StrOf e']]) in Hd.
    apply app_inj_tail in Hd. destruct Hd as [_ Hd]. discriminate.
  - destruct (success_envelope rp) eqn:Hs.
    + destruct (edit_verdict_success title rp Hs) as [revid Hr]. congruence.
    + split; [cbn [existsb edit_succeeded]; rewrite Hs; reflexivity|].
      split; [discriminate|].
      intros d' rq rp' m Hd Hm.
      change [Http csrf_token_request (Answer rs);
              Http (edit_request title content t summary) rp]
        with ([Http csrf_token_request (Answer rs)]
                ++ [Http (edit_request title content t summary) rp]) in Hd.
      apply app_inj_tail in Hd. destruct Hd as [_ Hd].
      injection Hd as _ <-.
      destruct (edit_verdict_failure title rp Hs) as (e0 & He0 & Hmsg).
      rewrite <- (Hmsg m Hm). congruence.
Qed.

Lemma edit_page_loop_outcome title content summary retries attempts :
  forall h,
    let run := edit_page_loop remote title content summary retries attempts h in
    ((exists revid, fst run = Ok (edit_success revid title))
     <-> existsb edit_succeeded (snd run) = true)
    /\ (forall e, fst run = Raise e ->
          (exists d0 dl,
              snd run = d0 ++ dl
              /\ edit_attempt remote title content summary (h ++ d0)
                 = (Raise e, dl))
          /\ (forall d' rq rp m,
                snd run = d' ++ [Http rq rp] ->
                rejection_message rp = Some m ->
                e = RuntimeError [Val m])).
Proof.
  induction attempts as [|a rest IH]; intros h; cbv zeta.
  - cbn. split; [split; [intros [? ?]|]; discriminate|]. discriminate.
  - rewrite edit_page_loop_step.
    destruct (edit_attempt remote title content summary h) as [[v|e] d] eqn:Ha.
    + destruct (edit_attempt_returns _ _ _ _ _ _ Ha) as ([revid ->] & Hex).
      cbn [fst snd]. split; [split; eauto|]. discriminate.
    + destruct (edit_attempt_raises _ _ _ _ _ _ Ha) as (Hex & Hne & Hlast).
      destruct (retryable retries a e); cbn [fst snd].
      * specialize (IH ((h ++ d) ++ [retry_record a e])). cbv zeta in IH.
        destruct IH as (IHiff & IHerr).
        destruct (retry_record_is_log a e) as [msg Hrec]. rewrite Hrec in *.
        split.
        -- rewrite existsb_app, Hex. cbn [existsb edit_succeeded orb]. exact IHiff.
        -- intros e1 He1. destruct (IHerr e1 He1) as ((d0 & dl & Hsplit & Hatt) & Hmsg).
           split.
           ++ exists (d ++ Log WARNING msg :: d0), dl. split.
              ** rewrite Hsplit, <- app_assoc. reflexivity.
              ** rewrite <- Hatt. f_equal. rewrite <- !app_assoc. reflexivity.
           ++ intros d' rq rp m Hd Hm.
              destruct (snoc_tail _ _ _ _ _ Hd) as [[_ Hx] | [tl' Htl]];
                [discriminate|].
              eapply Hmsg; eassumption.
      * split; [split; [intros [? ?]; discriminate | congruence]|].
        intros e1 He1. injection He1 as <-. split; [|exact Hlast].
        exists [], d. rewrite app_nil_r. auto.
Qed.

(** An attempt opens with its token fetch. *)
Lemma edit_page_loop_opens title content summary retries attempt rest h :
  exists rp tail,
    snd (edit_page_loop remote title content summary retries (attempt :: rest) h)
    = Http csrf_token_request rp :: tail.
Proof.
  rewrite edit_page_loop_step.
  destruct (edit_attempt_cases title content summary h)
    as [(rp & e & _ & ->) | (rs & t & rp & _ & ->)].
  - exists rp. destruct (retryable retries attempt csrf_failure);
      cbn [fst snd app]; eauto.
  - exists (Answer rs). destruct (edit_verdict title rp) as [v|e];
      [|destruct (retryable retries attempt e)]; cbn [fst snd app]; eauto.
Qed.

Lemma seq_split (done l : list Z) :
  forall k n,
    map Z.of_nat (seq k n) = done ++ l ->
    l = map Z.of_nat (seq (k + List.length done) (n - List.length done))
    /\ (List.length done <= n)%nat.
Proof.
  induction done as [|x done IH]; intros k n H.
  - cbn [app List.length] in *. rewrite Nat.add_0_r, Nat.sub_0_r.
    split; [congruence|lia].
  - destruct n as [|n]; [discriminate|].
    cbn [seq map app] in H. injection H as _ H.
    destruct (IH _ _ H) as [-> Hle]. cbn [List.length].
    split; [|lia].
    replace (k + S (List.length done))%nat with (S k + List.length done)%nat by lia.
    replace (S n - S (List.length done))%nat with (n - List.length done)%nat by lia.
    reflexivity.
Qed.

Lemma range_split retries done attempt rest :
  range (retries + 1) = done ++ attempt :: rest ->
  upto retries (attempt :: rest).
Proof.
  unfold range. intros H. destruct (seq_split _ _ _ _ H) as [Heq Hle].
  exists (0 + List.length done)%nat, (Z.to_nat (retries + 1) - List.length done)%nat.
  split; [exact Heq|].
  assert (0 < Z.to_nat (retries + 1))%nat; [|lia].
  destruct (Z.to_nat (retries + 1)); [|lia].
  destruct done; discriminate.
Qed.

End WithRemote.

End PublishFacts.

(** ** The publisher: [edit_page] *)

Import PublishFacts.

(** C5. For every [retries >= 0], one call of [edit_page] fetches the CSRF
    token at most [retries + 1] times; and when the token fetch keeps
    failing it is made again on every attempt, [retries + 1] times in all,
    no edit is submitted and the call raises the token failure. *)
Theorem edit_page_csrf_fetch_bound remote title content summary retries h :
  0 <= retries ->
  let run := edit_page remote title content summary retries h in
  Z.of_nat (csrf_fetches (snd run)) <= retries + 1
  /\ ((forall h', exists e d', get_csrf_token remote h' = (Raise e, d')) ->
      Z.of_nat (csrf_fetches (snd run)) = retries + 1
      /\ edit_posts (snd run) = 0%nat
      /\ fst run = Raise csrf_failure).
Proof.
  intros Hr run. subst run. unfold edit_page. split.
  - pose proof (edit_page_loop_fetches remote title content summary retries
                  (range (retries + 1)) h) as H.
    rewrite length_range in H. lia.
  - intros Hfail.
    destruct (edit_page_loop_no_token remote title content summary retries
                (range (retries + 1)) Hfail h (upto_range retries Hr))
      as (H1 & H2 & H3).
    rewrite H1, length_range. split; [lia|]. split; [exact H2|].
    apply H3. apply range_nonempty. exact Hr.
Qed.

Lemma edit_page_csrf_fetch_bound_witness :
  Z.of_nat (csrf_fetches (snd (edit_page unreachable "T" "text" "s" 2 []))) = 2 + 1
  /\ fst (edit_page unreachable "T" "text" "s" 2 []) = Raise csrf_failure.
Proof.
  destruct (edit_page_csrf_fetch_bound unreachable "T" "text" "s" 2 [])
    as [_ H]; [lia|].
  destruct H as (H1 & _ & H3).
  - intros h'. eexists. eexists. reflexivity.
  - split; assumption.
Defined.

(** C10. For every [retries >= 0], [edit_page] returns the success
    dictionary or raises: the loop never runs out, so the [None] that
    falling off the end would return is out of reach. *)
Theorem edit_page_returns_or_raises remote title content summary retries h :
  0 <= retries ->
  (exists revid,
      fst (edit_page remote title content summary retries h)
      = Ok (edit_success revid title))
  \/ (exists e, fst (edit_page remote title content summary retries h) = Raise e).
Proof.
  intros Hr. unfold edit_page.
  destruct (edit_page_loop_exits remote title content summary retries
              (range (retries + 1)) h (range_nonempty retries Hr)
              (upto_range retries Hr)) as [[revid Hok] | [e He]].
  - left. exists revid. exact Hok.
  - right. exists e. exact He.
Qed.

Lemma edit_page_returns_or_raises_witness :
  (exists revid,
      fst (edit_page accepts_edit "T" "text" "s" 0 [])
      = Ok (edit_success revid "T"))
  \/ (exists e,
      fst (edit_page accepts_edit "T" "text" "s" 0 [])
      = Raise e).
Proof.
  apply (edit_page_returns_or_raises
           accepts_edit
           "T" "text" "s" 0 []).
  lia.
Defined.

(** Without the precondition the loop does run out: [range(0)] is empty. *)
Example edit_page_negative_retries :
  edit_page unreachable "T" "text" "s" (-1) [] = (Ok PNone, []).
Proof. reflexivity. Qed.

(** C9. In a run of [edit_page] every edit submission comes right after a
    CSRF token fetch: the fetch is the event just before it, it was made at
    that point of the run, and the submission carries the token that very
    fetch returned.  No token outlives its attempt. *)
Theorem edit_page_fresh_csrf_token remote title content summary retries h
    d1 ev d2 :
  snd (edit_page remote title content summary retries h) = d1 ++ ev :: d2 ->
  is_edit_post ev = true ->
  exists d0 rs t rp,
    d1 = d0 ++ [Http csrf_token_request (Answer rs)]
    /\ get_csrf_token remote (h ++ d0)
       = (Ok t, [Http csrf_token_request (Answer rs)])
    /\ ev = Http (edit_request title content t summary) rp.
Proof.
  unfold edit_page. revert h d1 ev d2.
  generalize (range (retries + 1)) as attempts.
  induction attempts as [|a rest IH]; intros h d1 ev d2 Hd Hev.
  - cbn in Hd. destruct d1; discriminate.
  - rewrite edit_page_loop_step in Hd.
    destruct (edit_attempt_cases remote title content summary h)
      as [(rp & e & _ & Ha) | (rs & t & rp & Ht & Ha)]; rewrite Ha in Hd.
    + (* the token fetch failed *)
      destruct (retryable retries a csrf_failure); cbn [fst snd app] in Hd.
      * destruct d1 as [|x1 [|x2 [|x3 d1]]]; cbn [app] in Hd;
          injection Hd as; subst; try discriminate.
        match goal with
        | H : snd _ = _ |- _ =>
            destruct (IH _ _ _ _ H Hev) as (d0 & rs & t & rp' & -> & Hg & ->)
        end.
        eexists (_ :: _ :: _ :: d0), rs, t, rp'.
        split; [reflexivity|]. split; [|reflexivity].
        rewrite <- Hg. f_equal. rewrite <- !app_assoc. reflexivity.
      * destruct d1 as [|x1 [|x2 d1]]; cbn [app] in Hd;
          injection Hd as; subst; try discriminate.
        destruct d1; discriminate.
    + (* the token was fetched and the edit submitted *)
      assert (Hhere :
        exists d0 rs0 t0 rp0,
          [Http csrf_token_request (Answer rs)]
          = d0 ++ [Http csrf_token_request (Answer rs0)]
          /\ get_csrf_token remote (h ++ d0)
             = (Ok t0, [Http csrf_token_request (Answer rs0)])
          /\ Http (edit_request title content t summary) rp
             = Http (edit_request title content t0 summary) rp0).
      { exists [], rs, t, rp. rewrite app_nil_r. auto. }
      destruct (edit_verdict title rp) as [v|e]; cbn [fst snd app] in Hd.
      * destruct d1 as [|x1 [|x2 d1]]; cbn [app] in Hd;
          injection Hd as; subst; try discriminate; [exact Hhere|].
        destruct d1; discriminate.
      * destruct (retryable retries a e); cbn [fst snd app] in Hd.
        -- destruct d1 as [|x1 [|x2 [|x3 d1]]]; cbn [app] in Hd;
             injection Hd as; subst; try discriminate; [exact Hhere| |].
           ++ destruct (retry_record_is_log a e) as [msg Hm].
              rewrite Hm in Hev. discriminate.
           ++ match goal with
              | H : snd _ = _ |- _ =>
                  destruct (IH _ _ _ _ H Hev)
                    as (d0 & rs' & t' & rp' & -> & Hg & ->)
              end.
              eexists (_ :: _ :: _ :: d0), rs', t', rp'.
              split; [reflexivity|]. split; [|reflexivity].
              rewrite <- Hg. f_equal. rewrite <- !app_assoc. reflexivity.
        -- destruct d1 as [|x1 [|x2 d1]]; cbn [app] in Hd;
             injection Hd as; subst; try discriminate; [exact Hhere|].
           destruct d1; discriminate.
Qed.

Lemma edit_page_fresh_csrf_token_witness :
  exists d0 rs t rp,
    [Http csrf_token_request (csrf_token_reply "c1");
     Http (edit_request "T" "text" (PStr "c1") "s") (http_status_reply 429);
     Log WARNING (rate_limited_retrying 0);
     Http csrf_token_request (csrf_token_reply "c2")]
    = d0 ++ [Http csrf_token_request (Answer rs)]
    /\ get_csrf_token rate_limited_then_fine ([] ++ d0)
       = (Ok t, [Http csrf_token_request (Answer rs)])
    /\ Http (edit_request "T" "text" (PStr "c2") "s") (edit_success_reply 12345)
       = Http (edit_request "T" "text" t "s") rp.
Proof.
  apply (edit_page_fresh_csrf_token rate_limited_then_fine "T" "text" "s" 2 []
           _ _ []); reflexivity.
Defined.

(** Scenario 3 of the spec: HTTP 429 on the first attempt, success on the
    second; two token fetches. *)
Example edit_page_rate_limited_once :
  fst (edit_page rate_limited_then_fine "T" "text" "s" 2 [])
  = Ok (edit_success (PInt 12345) "T")
  /\ csrf_fetches (snd (edit_page rate_limited_then_fine "T" "text" "s" 2 []))
     = 2%nat.
Proof. split; reflexivity. Qed.

(** Scenario 4 of the spec: three attempts, each edit rejected; the last
    message is raised after three token fetches. *)
Example edit_page_exhausts_attempts :
  let remote :=
    scripted [csrf_token_reply "c1"; edit_rejected_reply "first";
              csrf_token_reply "c2"; edit_rejected_reply "second";
              csrf_token_reply "c3"; edit_rejected_reply "third"] Refused in
  fst (edit_page remote "T" "text" "s" 2 [])
  = Raise (RuntimeError [Val (PStr "third")])
  /\ csrf_fetches (snd (edit_page remote "T" "text" "s" 2 [])) = 3%nat.
Proof. split; reflexivity. Qed.

Lemma send_inv_ok remote rq h rs d :
  send remote rq h = (Ok rs, d) -> d = [Http rq (Answer rs)].
Proof.
  unfold send. destruct (remote h rq); intros H; [discriminate|].
  injection H as -> <-. reflexivity.
Qed.

Lemma json_inv_ok response h v d :
  json response h = (Ok v, d) -> json_body response = Some v /\ d = [].
Proof.
  unfold json. destruct (json_body response); unfold ret, raise; intros H;
    [|discriminate].
  injection H as -> <-. auto.
Qed.

Lemma is_str_eq v s : is_str v s = true -> v = PStr s.
Proof.
  destruct v; cbn; try discriminate. intros H.
  apply String.eqb_eq in H. congruence.
Qed.

Lemma edit_reported_success_true res h d :
  WikiClient.edit_reported_success res h = (Ok true, d) ->
  d = []
  /\ exists edit, getitem res "edit" = Ok edit
                  /\ getitem edit "result" = Ok (PStr "Success").
Proof.
  unfold WikiClient.edit_reported_success, bind, lift, ret.
  destruct (py_contains res "edit") as [[|]|]; cbn [app]; try discriminate.
  destruct (getitem res "edit") as [edit|]; cbn [app]; [|discriminate].
  destruct (getitem edit "result") as [outcome|] eqn:Ho; cbn [app];
    [|discriminate].
  intros H. injection H as Hs <-. apply is_str_eq in Hs. subst outcome.
  eauto.
Qed.

(** X18. The single attempt of [publish_page] in wiki_client.py has the
    same success exit: it returns only on an answer whose [edit.result] is
    [Success], the last exchange of the call, and what it returns names the
    page and the [newrevid] of that answer. *)
Lemma publish_page_success_exit remote username password title content
    summary h v d :
  WikiClient.publish_page remote username password title content summary h
  = (Ok v, d) ->
  exists d0 csrf_token rs res edit revid,
    d = d0 ++ [Http (WikiClient.edit_request title (PStr content) csrf_token
                       summary) (Answer rs)]
    /\ json_body rs = Some res
    /\ getitem res "edit" = Ok edit
    /\ getitem edit "result" = Ok (PStr "Success")
    /\ getitem edit "newrevid" = Ok revid
    /\ v = PDict [("status", PStr "success"); ("page", PStr title);
                  ("revid", revid)].
Proof.
  unfold WikiClient.publish_page. intros H.
  apply bind_inv_ok in H. destruct H as (? & ds & ? & _ & H & ->).
  apply bind_inv_ok in H. destruct H as (csrf_token & dc & ? & _ & H & ->).
  apply bind_inv_ok in H. destruct H as (rs & dp & ? & Hsend & H & ->).
  apply send_inv_ok in Hsend. subst dp.
  apply bind_inv_ok in H. destruct H as (res & ? & ? & Hjson & H & ->).
  apply json_inv_ok in Hjson. destruct Hjson as [Hjson ->].
  apply bind_inv_ok in H. destruct H as ([|] & ? & ? & Hok & H & ->);
    [|discriminate].
  apply edit_reported_success_true in Hok.
  destruct Hok as (-> & edit & Hedit & Hresult).
  apply bind_inv_ok in H. destruct H as (edit' & ? & ? & He & H & ->).
  apply lift_inv_ok in He. destruct He as [He ->].
  apply bind_inv_ok in H. destruct H as (revid & ? & ? & Hr & H & ->).
  apply lift_inv_ok in Hr. destruct Hr as [Hr ->].
  assert (edit' = edit) by congruence. subst edit'.
  unfold ret in H. injection H as <- <-.
  exists (ds ++ dc), csrf_token, rs, res, edit, revid.
  split; [cbn [app]; rewrite app_assoc; reflexivity | auto 6].
Qed.




(** C2, as the code has it.  While attempts remain, an attempt that fails
    with anything but an HTTP error status, or with HTTP 429, is followed by
    one warning and then by the token fetch of the next attempt.  An attempt
    that fails with another HTTP error status ends the call at once, as does
    the failure of the last attempt. *)
Theorem edit_page_retry_policy remote title content summary retries
    done attempt rest h e d :
  range (retries + 1) = done ++ attempt :: rest ->
  edit_attempt remote title content summary h = (Raise e, d) ->
  let run :=
    edit_page_loop remote title content summary retries (attempt :: rest) h in
  (attempt < retries ->
   (forall status, e = HTTPError status -> status = 429) ->
   exists w rp tail,
     snd run = d ++ Log WARNING w :: Http csrf_token_request rp :: tail)
  /\ (attempt = retries
      \/ (exists status, e = HTTPError status /\ status <> 429) ->
      run = (Raise e, d)).
Proof.
  intros Hsplit Ha run. subst run. rewrite edit_page_loop_step, Ha.
  apply range_split in Hsplit. split.
  - intros Hlt H429.
    assert (Hretry : retryable retries attempt e = true).
    { destruct e; cbn [retryable]; try (apply Z.ltb_lt; exact Hlt).
      rewrite (H429 status eq_refl). apply andb_true_intro.
      split; [reflexivity | apply Z.ltb_lt; exact Hlt]. }
    rewrite Hretry. cbn [snd].
    destruct (upto_cons _ _ _ Hsplit) as [(_ & _ & Hne) | (Hge & _)].
    + destruct rest as [|next rest]; [congruence|].
      destruct (retry_record_is_log attempt e) as [w Hw]. rewrite Hw.
      destruct (edit_page_loop_opens remote title content summary retries
                  next rest ((h ++ d) ++ [Log WARNING w])) as (rp & tail & ->).
      eauto.
    + apply Z.ltb_ge in Hge. lia.
  - intros [-> | (status & -> & Hs)].
    + assert (Hno : retryable retries retries e = false).
      { destruct e; cbn [retryable]; rewrite Z.ltb_irrefl;
          rewrite ?andb_false_r; reflexivity. }
      rewrite Hno. reflexivity.
    + cbn [retryable]. apply Z.eqb_neq in Hs. rewrite Hs. reflexivity.
Qed.

Lemma edit_page_retry_policy_witness :
  exists w rp tail,
    snd (edit_page_loop rejected_then_down "T" "text" "s" 2 [0; 1; 2] [])
    = [Http csrf_token_request (csrf_token_reply "c1");
       Http (edit_request "T" "text" (PStr "c1") "s")
         (edit_rejected_reply "ratelimited")]
      ++ Log WARNING w :: Http csrf_token_request rp :: tail.
Proof.
  refine (proj1 (edit_page_retry_policy rejected_then_down "T" "text" "s" 2
                   [] 0 [1; 2] []
                   (RuntimeError [Val (PStr "ratelimited")]) _ _ _) _ _).
  - reflexivity.
  - reflexivity.
  - lia.
  - intros status H. discriminate H.
Defined.

(** C2 as stated fails: the first submission is answered with HTTP 500
    while two attempts remain, and the call raises at once, after a single
    token fetch. *)
Lemma edit_page_http_error_not_retried :
  edit_attempt server_error_first "T" "text" "s" [] 
  = (Raise (HTTPError 500),
     [Http csrf_token_request (csrf_token_reply "c1");
      Http (edit_request "T" "text" (PStr "c1") "s") (http_status_reply 500)])
  /\ 0 < 2
  /\ fst (edit_page server_error_first "T" "text" "s" 2 []) = Raise (HTTPError 500)
  /\ csrf_fetches (snd (edit_page server_error_first "T" "text" "s" 2 [])) = 1%nat.
Proof. repeat split. Qed.

(** ** The session authenticator: [login] and [create_bot_password] *)

(** A handler that logs and raises again never turns a failure into a
    return. *)
Lemma try_reraise_inv_ok {A} (m : M A) (prefix : string) h a d :
  try_except m
    (fun e => logger ERROR [Lit prefix; StrOf e] ;; raise e) h = (Ok a, d) ->
  m h = (Ok a, d).
Proof.
  unfold try_except. destruct (m h) as [[a'|e] d1]; [auto|].
  unfold bind, logger, raise. cbn. discriminate.
Qed.

Example scoped_identity_recognised :
  str_in "@" "alice" = false /\ str_in "@" "alice@PsiAdirondackBot" = true.
Proof. split; reflexivity. Qed.

(** C7. When the remote accepts the first login attempt, [login] returns
    the identity it was given and no scoped credential: the second
    component of its result is [None].  It has made that one exchange and
    nothing else. *)
Theorem login_first_attempt_accepted remote depth username password token h rp :
  remote h (login_request username password token) = rp ->
  login_accepted rp = true ->
  login remote (S depth) username password token h
  = (Ok (username, PNone), [Http (login_request username password token) rp]).
Proof.
  intros Hrp Hacc. cbn [login].
  unfold try_except, bind, send, raise_for_status, json, lift, ret, py_get.
  rewrite Hrp. revert Hacc.
  unfold login_accepted, login_envelope, status_ok.
  repeat (run_step; cbn [app fst snd negb lookup is_str] in * );
    intros; try discriminate; try congruence.
Qed.

Lemma login_first_attempt_accepted_witness :
  login accepts_login 1 "alice" (PStr "correct-pw") (PStr "t0") []
  = (Ok ("alice", PNone),
     [Http (login_request "alice" (PStr "correct-pw") (PStr "t0"))
        login_success_reply]).
Proof.
  apply (login_first_attempt_accepted accepts_login 0 "alice"
           (PStr "correct-pw") (PStr "t0") [] login_success_reply);
    reflexivity.
Defined.

(** C6. Whenever [create_bot_password] returns, the identity it returns is
    the primary identity, then [@], then the bot name; this holds for every
    primary identity, those without [@] among them. *)
Theorem create_bot_password_identity remote depth main_username main_password
    botname h bot_username bot_password d :
  create_bot_password remote depth main_username main_password botname h
  = (Ok (bot_username, bot_password), d) ->
  bot_username = (main_username ++ "@" ++ botname)%string.
Proof.
  destruct depth as [|depth]; [discriminate|]. cbn [create_bot_password].
  intros H. apply try_reraise_inv_ok in H.
  repeat match type of H with
         | bind _ _ _ = (Ok _, _) =>
             let H1 := fresh "Hm" in
             apply bind_inv_ok in H; destruct H as (? & ? & ? & H1 & H & ?)
         end.
  destruct (is_str _ "success").
  - apply bind_inv_ok in H. destruct H as (pw & ? & ? & _ & H & _).
    unfold ret in H. congruence.
  - apply bind_inv_ok in H. destruct H as (? & ? & ? & _ & H & _).
    discriminate.
Qed.

Lemma create_bot_password_identity_witness :
  fst (create_bot_password grants_bot_password 2 "alice" (PStr "pw")
         DEFAULT_BOT_SUFFIX [])
  = Ok ("alice@PsiAdirondackBot", PStr "s3cret")
  /\ "alice@PsiAdirondackBot" = ("alice" ++ "@" ++ DEFAULT_BOT_SUFFIX)%string.
Proof.
  split; [reflexivity|].
  apply (create_bot_password_identity grants_bot_password 2 "alice"
           (PStr "pw") DEFAULT_BOT_SUFFIX [] "alice@PsiAdirondackBot"
           (PStr "s3cret")
           (snd (create_bot_password grants_bot_password 2 "alice" (PStr "pw")
                   DEFAULT_BOT_SUFFIX []))).
  reflexivity.
Defined.

Lemma provisionings_app d1 d2 :
  provisionings (d1 ++ d2) = (provisionings d1 + provisionings d2)%nat.
Proof. unfold provisionings. rewrite filter_app, length_app. reflexivity. Qed.

(** C1, at the failing input.  The remote refuses the password of [alice]
    every time with [WrongPass].  [login] is refused and calls
    [create_bot_password], which logs in again with the same primary
    credentials, is refused again and calls [create_bot_password] again.
    Whatever depth of nested calls the interpreter allows, the two use it
    up: [login] announces a bot password creation once for every two levels
    and ends in [RecursionError].  The fallback is not taken once, and
    nothing but the recursion limit stops it. *)
Theorem login_fallback_unbounded depth :
  (forall token h,
      let run := login stubborn depth "alice" (PStr "pw") token h in
      fst run = Raise RecursionError
      /\ provisionings (snd run) = Nat.div2 (S depth))
  /\ (forall h,
      let run := create_bot_password stubborn depth "alice" (PStr "pw")
                   DEFAULT_BOT_SUFFIX h in
      fst run = Raise RecursionError
      /\ provisionings (snd run) = Nat.div2 depth).
Proof.
  induction depth as [|n [IHlogin IHcreate]].
  - split; intros; split; reflexivity.
  - split.
    + intros token h. cbv zeta. cbn [login].
      unfold try_except, bind, send, raise_for_status, json, lift, logger, ret,
        raise, py_get.
      cbn -[create_bot_password login get_login_token].
      match goal with
      | |- context [create_bot_password stubborn n ?u ?p ?b ?hh] =>
          destruct (IHcreate hh) as [Hf Hp];
          destruct (create_bot_password stubborn n u p b hh) as [[?|?] dd]
      end; cbn [fst snd] in *; [discriminate|].
      injection Hf as ->. split; [reflexivity|].
      rewrite provisionings_app.
      change (provisionings (?a :: ?b :: dd))
        with (provisionings ([a; b] ++ dd)).
      rewrite provisionings_app, Hp. cbn. lia.
    + intros h. cbv zeta. cbn [create_bot_password].
      unfold try_except, bind, get_login_token, try_except, bind, send,
        raise_for_status, json, lift, logger, ret, raise, getitem.
      cbn -[create_bot_password login].
      match goal with
      | |- context [login stubborn n ?u ?p ?t ?hh] =>
          destruct (IHlogin t hh) as [Hf Hp];
          destruct (login stubborn n u p t hh) as [[?|?] dd]
      end; cbn [fst snd] in *; [discriminate|].
      injection Hf as ->. split; [reflexivity|].
      rewrite provisionings_app.
      change (provisionings (?a :: dd)) with (provisionings ([a] ++ dd)).
      rewrite provisionings_app, Hp. cbn. lia.
Qed.

(** Scenario 2 of the spec, where the remote does accept the re-login that
    [create_bot_password] makes: the fallback is taken once. *)
Example login_fallback_once_when_relogin_accepted :
  provisionings
    (snd (login provisions_then_down 10 "alice" (PStr "pw") (PStr "t0")
            [Http login_token_request (login_token_reply "t0")]))
  = 1%nat.
Proof. reflexivity. Qed.

(** With a limit of a thousand nested calls that is five hundred
    provisioning attempts. *)
Example login_fallback_thousand :
  provisionings (snd (login stubborn 1000 "alice" (PStr "pw") (PStr "t") []))
  = 500%nat.
Proof. vm_compute. reflexivity. Qed.

(** ** The page copy: [copy_page] *)

Example redirect_marker_recognised :
  startswith (lower (strip "  #REDIRECT [[Target]]  ")) "#redirect" = true
  /\ startswith (lower (strip "#Redirect[[Target]]")) "#redirect" = true
  /\ startswith (lower (strip "See #REDIRECT")) "#redirect" = false.
Proof. repeat split. Qed.

(** Fetching the sandbox content submits no edit. *)
Lemma copy_page_fetch_no_write remote username password from_title h :
  edit_posts
    (snd (WikiClient.copy_page_fetch remote username password from_title h))
  = 0%nat.
Proof.
  unfold WikiClient.copy_page_fetch, WikiClient.make_session,
    WikiClient.get_csrf_token, bind, send, json, lift, ret, raise, getitem,
    py_get, getitem0, py_contains.
  repeat (run_step; cbn [app fst snd negb]); reflexivity.
Qed.

(** C8. When the content fetched from the sandbox page is a string that,
    stripped and lowercased, starts with [#redirect], [copy_page] raises
    the safeguard's error, and the events of the whole call are those of
    the fetch: no edit submission is among them.  [str_strip] and
    [str_lower] are Python's [str.strip] and [str.lower]; the statement
    holds whatever they do, so for every content and every kind of
    whitespace they know. *)
Theorem copy_page_rejects_redirect remote username password
    (str_strip str_lower : string -> string)
    from_title to_title reason h csrf_token s d :
  WikiClient.copy_page_fetch remote username password from_title h
  = (Ok (csrf_token, PStr s), d) ->
  startswith (str_lower (str_strip s)) "#redirect" = true ->
  WikiClient.copy_page remote username password str_strip str_lower
    from_title to_title reason h
  = (Raise (RuntimeError WikiClient.redirect_message), d)
  /\ edit_posts d = 0%nat.
Proof.
  intros Hfetch Hredirect. split.
  - unfold WikiClient.copy_page. rewrite (bind_ok _ _ _ _ _ Hfetch).
    unfold WikiClient.copy_page_write, bind, ret, raise.
    rewrite Hredirect. cbn [fst snd]. rewrite app_nil_r. reflexivity.
  - pose proof (copy_page_fetch_no_write remote username password from_title h)
      as Hno.
    rewrite Hfetch in Hno. exact Hno.
Qed.

Lemma copy_page_rejects_redirect_witness :
  fst (WikiClient.copy_page sandbox_is_redirect (PStr "Bot@crm") (PStr "pw")
         strip lower
         "User:Bot/sandbox" "Article" "Publishing final article" [])
  = Raise (RuntimeError WikiClient.redirect_message)
  /\ edit_posts
       (snd (WikiClient.copy_page sandbox_is_redirect (PStr "Bot@crm")
               (PStr "pw") strip lower "User:Bot/sandbox" "Article"
               "Publishing final article" []))
     = 0%nat.
Proof.
  destruct (copy_page_rejects_redirect sandbox_is_redirect (PStr "Bot@crm")
              (PStr "pw") strip lower "User:Bot/sandbox" "Article"
              "Publishing final article" [] (PStr "c0")
              "#REDIRECT [[Target]]"
              (snd (WikiClient.copy_page_fetch sandbox_is_redirect
                      (PStr "Bot@crm") (PStr "pw") "User:Bot/sandbox" [])))
    as [Hrun Hno]; [reflexivity | reflexivity |].
  rewrite Hrun. split; [reflexivity | exact Hno].
Defined.

(** The safeguard of [copy_page] on content that starts with U+3000, with a
    [strip] that knows it. *)
Example copy_page_rejects_wide_redirect :
  WikiClient.copy_page sandbox_is_wide_redirect (PStr "Bot@crm") (PStr "pw")
    strip_ideographic lower "User:Bot/sandbox" "Article" "r" []
  = (Raise (RuntimeError WikiClient.redirect_message),
     snd (WikiClient.copy_page_fetch sandbox_is_wide_redirect (PStr "Bot@crm")
            (PStr "pw") "User:Bot/sandbox" [])).
Proof. reflexivity. Qed.

(** ** The command line: [main] *)

Lemma credentials_reported_app d1 d2 :
  credentials_reported (d1 ++ d2)
  = credentials_reported d1 || credentials_reported d2.
Proof. apply existsb_app. Qed.

(** [edit_page] logs warnings and errors, never the credentials. *)
Lemma edit_page_loop_no_report remote title content summary retries attempts :
  forall h,
    credentials_reported
      (snd (edit_page_loop remote title content summary retries attempts h))
    = false.
Proof.
  induction attempts as [|a rest IH]; intros h; [reflexivity|].
  rewrite edit_page_loop_step.
  destruct (edit_attempt_cases remote title content summary h)
    as [(rp & e & _ & ->) | (rs & t & rp & _ & ->)].
  - destruct (retryable retries a csrf_failure); cbn [fst snd]; [|reflexivity].
    rewrite credentials_reported_app.
    change (credentials_reported (?x :: ?l))
      with (is_credentials_report x || credentials_reported l).
    rewrite IH. reflexivity.
  - destruct (edit_verdict title rp) as [v|e]; [reflexivity|].
    destruct (retryable retries a e); cbn [fst snd]; [|reflexivity].
    rewrite credentials_reported_app.
    change (credentials_reported (?x :: ?l))
      with (is_credentials_report x || credentials_reported l).
    rewrite IH. destruct (retry_record_is_log a e) as [msg ->]. reflexivity.
Qed.

(** What follows the login in [main], for whatever password the login
    might hand over: the credential is reported exactly when the publish
    succeeded and that password is truthy, and a failed publish goes up as
    it is with nothing added.  The report is there to be made. *)
Lemma main_publish_report remote args content final_username bot_password h :
  let published :=
    edit_page remote (arg_title args) content (arg_summary args) 2 h in
  let run := main_publish remote args content final_username bot_password h in
  (forall e, fst published = Raise e -> run = (Raise e, snd published))
  /\ (credentials_reported (snd run) = true
      <-> (exists revid, fst published = Ok (edit_success revid (arg_title args)))
          /\ truthy bot_password = true).
Proof.
  intros published run.
  pose proof (edit_page_loop_no_report remote (arg_title args) content
                (arg_summary args) 2 (range (2 + 1)) h) as Hquiet.
  fold (edit_page remote (arg_title args) content (arg_summary args) 2 h)
    in Hquiet.
  fold published in Hquiet.
  assert (Hcases :
    (exists revid, fst published = Ok (edit_success revid (arg_title args)))
    \/ (exists e, fst published = Raise e)).
  { apply edit_page_loop_exits;
      [apply range_nonempty | apply upto_range]; lia. }
  subst run. unfold main_publish.
  destruct published as [r d] eqn:Hpub. cbn [fst snd] in *.
  destruct Hcases as [[revid ->] | [e ->]].
  - rewrite (bind_ok _ _ _ _ _ Hpub).
    unfold bind, lift, logger, ret, getitem, edit_success.
    cbn [lookup String.eqb Ascii.eqb Bool.eqb truthy fst snd app].
    split; [discriminate|].
    destruct (truthy bot_password); cbn [fst snd app];
      rewrite credentials_reported_app, Hquiet; cbn; split; eauto;
      intros [_ H]; discriminate.
  - rewrite (bind_raise _ _ _ _ _ Hpub). cbn [fst snd].
    split; [intros e' He'; congruence|].
    rewrite Hquiet. split; [discriminate|]. intros [[revid H] _]. discriminate.
Qed.

(** A run in which the publish fails.  The password is refused, a bot
    password is granted and the scoped login succeeds; then nothing
    answers.  [main] raises, and no record of its log carries the
    credential. *)
Lemma main_loses_provisioned_credential :
  let run :=
    main provisions_then_down (renders "text") 10 cli_args no_environ
      silent_console [] in
  existsb bot_password_granted (snd run) = true
  /\ fst run = Raise csrf_failure
  /\ credentials_reported (snd run) = false
  /\ existsb (mentions "s3cret") (snd run) = false.
Proof. cbv zeta. repeat split; vm_compute; reflexivity. Qed.

(** The result of [login] carries no password even after a successful
    fallback: the final, accepted attempt returns [None] in that place. *)
Example login_fallback_returns_none :
  fst (login provisions_then_down 10 "alice" (PStr "pw") (PStr "t0")
         [Http login_token_request (login_token_reply "t0")])
  = Ok ("alice@PsiAdirondackBot", PNone).
Proof. reflexivity. Qed.

(** ** The token fetches of wiki_publish.py *)

(** X1. [get_login_token] makes exactly one exchange.  It returns the
    value under [query.tokens.logintoken] when the reply has a non-error
    status and carries one; every other reply, and a refused connection,
    ends in the same RuntimeError after one error record. *)
Theorem get_login_token_outcome remote h :
  let rp := remote h login_token_request in
  match token_in "logintoken" rp with
  | Some t =>
      get_login_token remote h = (Ok t, [Http login_token_request rp])
  | None =>
      exists e,
        get_login_token remote h
        = (Raise login_token_failure,
           [Http login_token_request rp;
            Log ERROR [Lit "Token fetch failed: "; StrOf e]])
  end.
Proof.
  cbv zeta.
  unfold get_login_token, try_except, bind, send, raise_for_status, json, lift,
    logger, raise, ret, token_in, status_ok, login_token_failure.
  destruct (remote h login_token_request) as [|rs]; cbn [app fst snd];
    [eauto|].
  destruct ((400 <=? status_code rs) && (status_code rs <? 600));
    cbn [app fst snd negb]; [eauto|].
  destruct (json_body rs) as [body|]; cbn [app fst snd]; [|eauto].
  destruct (getitem body "query") as [query|]; cbn [app fst snd]; [|eauto].
  destruct (getitem query "tokens") as [tokens|]; cbn [app fst snd]; [|eauto].
  destruct (getitem tokens "logintoken") as [t|]; cbn [app fst snd]; eauto.
Qed.

(** X2. [get_csrf_token] likewise: one exchange, the value under
    [query.tokens.csrftoken] of a reply with a non-error status, and the
    one RuntimeError for everything else. *)
Theorem get_csrf_token_outcome remote h :
  let rp := remote h csrf_token_request in
  match token_in "csrftoken" rp with
  | Some t =>
      get_csrf_token remote h = (Ok t, [Http csrf_token_request rp])
  | None =>
      exists e,
        get_csrf_token remote h
        = (Raise csrf_failure,
           [Http csrf_token_request rp;
            Log ERROR [Lit "CSRF token fetch failed: "; StrOf e]])
  end.
Proof.
  cbv zeta.
  unfold get_csrf_token, try_except, bind, send, raise_for_status, json, lift,
    logger, raise, ret, token_in, status_ok, csrf_failure.
  destruct (remote h csrf_token_request) as [|rs]; cbn [app fst snd];
    [eauto|].
  destruct ((400 <=? status_code rs) && (status_code rs <? 600));
    cbn [app fst snd negb]; [eauto|].
  destruct (json_body rs) as [body|]; cbn [app fst snd]; [|eauto].
  destruct (getitem body "query") as [query|]; cbn [app fst snd]; [|eauto].
  destruct (getitem query "tokens") as [tokens|]; cbn [app fst snd]; [|eauto].
  destruct (getitem tokens "csrftoken") as [t|]; cbn [app fst snd]; eauto.
Qed.

(** ** What a computation emits *)

Lemma emits_ret P {A} (a : A) : emits P (ret a).
Proof. intros h. constructor. Qed.

Lemma emits_raise P {A} e : emits P (@raise A e).
Proof. intros h. constructor. Qed.

Lemma emits_lift P {A} (r : result A) : emits P (lift r).
Proof. intros h. constructor. Qed.

Lemma emits_logger (P : Event -> Prop) lvl msg :
  P (Log lvl msg) -> emits P (logger lvl msg).
Proof. intros H h. cbn. auto. Qed.

Lemma emits_send (P : Event -> Prop) remote rq :
  (forall rp, P (Http rq rp)) -> emits P (send remote rq).
Proof. intros H h. unfold send. destruct (remote h rq); cbn; auto. Qed.

Lemma emits_raise_for_status P response : emits P (raise_for_status response).
Proof.
  unfold raise_for_status.
  destruct ((400 <=? status_code response) && (status_code response <? 600));
    [apply emits_raise | apply emits_ret].
Qed.

Lemma emits_json P response : emits P (json response).
Proof.
  unfold json. destruct (json_body response);
    [apply emits_ret | apply emits_raise].
Qed.

Lemma emits_bind P {A B} (m : M A) (f : A -> M B) :
  emits P m -> (forall a, emits P (f a)) -> emits P (bind m f).
Proof.
  intros Hm Hf h. unfold bind. specialize (Hm h).
  destruct (m h) as [[a|e] d1]; cbn [snd] in *; [|exact Hm].
  specialize (Hf a (h ++ d1)). destruct (f a (h ++ d1)) as [r d2].
  cbn [snd] in *. apply Forall_app. auto.
Qed.

Lemma emits_try P {A} (m : M A) handler :
  emits P m -> (forall e, emits P (handler e)) -> emits P (try_except m handler).
Proof.
  intros Hm Hh h. unfold try_except. specialize (Hm h).
  destruct (m h) as [[a|e] d1]; cbn [snd] in *; [exact Hm|].
  specialize (Hh e (h ++ d1)). destruct (handler e (h ++ d1)) as [r d2].
  cbn [snd] in *. apply Forall_app. auto.
Qed.

(** One step of the search for what a computation emits. *)
Ltac emits_step :=
  first
    [ apply emits_ret | apply emits_raise | apply emits_lift
    | apply emits_raise_for_status | apply emits_json
    | apply emits_bind; [|intros ?]
    | apply emits_try; [|intros ?]
    | match goal with
      | |- emits _ (if ?b then _ else _) => destruct b
      | |- emits _ (match ?x with _ => _ end) => destruct x
      end ].

(** ** More on the session authenticator *)

Lemma get_login_token_emits (P : Event -> Prop) remote :
  (forall lvl msg, P (Log lvl msg)) ->
  (forall rq rp, session_request rq -> P (Http rq rp)) ->
  emits P (get_login_token remote).
Proof.
  intros Hlog Hreq. unfold get_login_token.
  repeat emits_step;
    solve [ apply emits_logger, Hlog
          | apply emits_send; intros; apply Hreq; constructor ].
Qed.

Lemma get_csrf_token_emits (P : Event -> Prop) remote :
  (forall lvl msg, P (Log lvl msg)) ->
  (forall rq rp, session_request rq -> P (Http rq rp)) ->
  emits P (get_csrf_token remote).
Proof.
  intros Hlog Hreq. unfold get_csrf_token.
  repeat emits_step;
    solve [ apply emits_logger, Hlog
          | apply emits_send; intros; apply Hreq; constructor ].
Qed.

Lemma session_emits (P : Event -> Prop) remote :
  (forall lvl msg, P (Log lvl msg)) ->
  (forall rq rp, session_request rq -> P (Http rq rp)) ->
  forall depth,
    (forall username password token,
        emits P (login remote depth username password token))
    /\ (forall main_username main_password botname,
        emits P (create_bot_password remote depth main_username main_password
                   botname)).
Proof.
  intros Hlog Hreq. induction depth as [|d [IHlogin IHcreate]].
  - split; intros; apply emits_raise.
  - split; intros.
    + cbn [login].
      repeat emits_step;
        try solve [ apply emits_logger, Hlog
                  | apply emits_send; intros; apply Hreq; constructor
                  | apply IHlogin | apply IHcreate
                  | apply get_login_token_emits; assumption ].
    + cbn [create_bot_password].
      repeat emits_step;
        try solve [ apply emits_logger, Hlog
                  | apply emits_send; intros; apply Hreq; constructor
                  | apply IHlogin
                  | apply get_login_token_emits; assumption
                  | apply get_csrf_token_emits; assumption ].
Qed.

Lemma session_request_addressed rq rp :
  session_request rq -> addressed_to_api (Http rq rp).
Proof. intros []; split; reflexivity. Qed.

Lemma session_request_not_edit rq rp :
  session_request rq -> is_edit_post (Http rq rp) = false.
Proof. intros []; reflexivity. Qed.

Lemma no_edit_posts d :
  Forall (fun ev => is_edit_post ev = false) d -> edit_posts d = 0%nat.
Proof.
  unfold edit_posts. induction 1 as [|ev d Hev _ IH]; [reflexivity|].
  cbn [filter]. rewrite Hev. exact IH.
Qed.

(** X3. Whatever the remote answers and however deep the fallback goes,
    [login] and [create_bot_password] make four kinds of request only: the
    two token queries, the login and the bot password creation.  Each goes
    to the API endpoint and asks for JSON, and none is an edit. *)
Theorem session_authenticator_requests remote depth username password token
    botname h :
  let d1 := snd (login remote depth username password token h) in
  let d2 := snd (create_bot_password remote depth username password botname h) in
  (Forall session_event d1 /\ Forall addressed_to_api d1
   /\ edit_posts d1 = 0%nat)
  /\ (Forall session_event d2 /\ Forall addressed_to_api d2
      /\ edit_posts d2 = 0%nat).
Proof.
  cbv zeta.
  assert (Hev : forall (P : Event -> Prop),
             (forall lvl msg, P (Log lvl msg)) ->
             (forall rq rp, session_request rq -> P (Http rq rp)) ->
             Forall P (snd (login remote depth username password token h))
             /\ Forall P (snd (create_bot_password remote depth username
                                 password botname h))).
  { intros P Hlog Hreq.
    destruct (session_emits P remote Hlog Hreq depth) as [Hl Hc].
    split; [apply Hl | apply Hc]. }
  destruct (Hev session_event) as [Hs1 Hs2]; [exact (fun _ _ => I) | auto |].
  destruct (Hev addressed_to_api) as [Ha1 Ha2];
    [exact (fun _ _ => I) | apply session_request_addressed |].
  destruct (Hev (fun ev => is_edit_post ev = false)) as [He1 He2];
    [reflexivity | apply session_request_not_edit |].
  repeat split; auto using no_edit_posts.
Qed.

Lemma raise_for_status_inv_ok response h u d :
  raise_for_status response h = (Ok u, d) -> status_ok response = true /\ d = [].
Proof.
  unfold raise_for_status, status_ok.
  destruct ((400 <=? status_code response) && (status_code response <? 600));
    unfold raise, ret; intros H; [discriminate|].
  injection H as _ <-. auto.
Qed.

(** The identity [create_bot_password] returns, for use below. *)
Lemma bot_identity remote depth main_username main_password botname h u p d :
  create_bot_password remote depth main_username main_password botname h
  = (Ok (u, p), d) ->
  u = (main_username ++ "@" ++ botname)%string.
Proof.
  destruct depth as [|depth]; [discriminate|]. cbn [create_bot_password].
  intros H. apply try_reraise_inv_ok in H.
  repeat match type of H with
         | bind _ _ _ = (Ok _, _) =>
             apply bind_inv_ok in H; destruct H as (? & ? & ? & _ & H & _)
         end.
  destruct (is_str _ "success").
  - apply bind_inv_ok in H. destruct H as (? & ? & ? & _ & H & _).
    unfold ret in H. congruence.
  - apply bind_inv_ok in H. destruct H as (? & ? & ? & _ & H & _).
    discriminate.
Qed.

Lemma at_sign_in_scoped_identity u b : str_in "@" (u ++ "@" ++ b) = true.
Proof.
  unfold str_in. induction u as [|c u IH].
  - cbn [append String.index prefix].
    destruct (ascii_dec "@" "@") as [_|Hne]; [|congruence].
    destruct b; reflexivity.
  - cbn [append String.index] in *.
    destruct (prefix "@" _); [reflexivity|].
    destruct (String.index 0 "@" _); [reflexivity|discriminate].
Qed.

(** A login that cannot fall back is one exchange. *)
Lemma login_scoped_run remote depth username password token h :
  str_in "@" username = true ->
  let rq := login_request username password token in
  if login_accepted (remote h rq)
  then login remote (S depth) username password token h
       = (Ok (username, PNone), [Http rq (remote h rq)])
  else exists e,
      login remote (S depth) username password token h
      = (Raise e, [Http rq (remote h rq);
                   Log ERROR [Lit "Login error: "; StrOf e]]).
Proof.
  intros Hat. cbv zeta. cbn [login].
  unfold try_except, bind, send, raise_for_status, json, lift, logger, ret,
    raise, py_get, login_accepted, login_envelope, status_ok.
  rewrite Hat.
  repeat (run_step;
          cbn [app fst snd negb lookup is_str andb] in * );
    try discriminate; try reflexivity;
    try match goal with
        | H : _ && false = true |- _ =>
            rewrite andb_false_r in H; discriminate H
        end;
    eauto; congruence.
Qed.

(** X4. A scoped identity, one that contains [@], is never provisioned
    for: [login] makes the one login exchange and either returns that
    identity with [None], when the remote accepts it, or logs the error and
    raises. *)
Theorem login_scoped_identity remote depth username password token h :
  str_in "@" username = true ->
  let rq := login_request username password token in
  let run := login remote (S depth) username password token h in
  provisionings (snd run) = 0%nat
  /\ exchanges (snd run) = 1%nat
  /\ (login_accepted (remote h rq) = true ->
      run = (Ok (username, PNone), [Http rq (remote h rq)]))
  /\ (login_accepted (remote h rq) = false -> exists e, fst run = Raise e).
Proof.
  intros Hat rq run.
  pose proof (login_scoped_run remote depth username password token h Hat)
    as H. cbv zeta in H. fold rq in H. fold run in H.
  destruct (login_accepted (remote h rq)).
  - rewrite H. repeat split. discriminate.
  - destruct H as [e ->]. repeat split; [discriminate|].
    intros _. exists e. reflexivity.
Qed.

Lemma login_scoped_identity_witness :
  login accepts_login 1 "alice@PsiAdirondackBot" (PStr "s3cret") (PStr "t0") []
  = (Ok ("alice@PsiAdirondackBot", PNone),
     [Http (login_request "alice@PsiAdirondackBot" (PStr "s3cret") (PStr "t0"))
        login_success_reply]).
Proof.
  apply (login_scoped_identity accepts_login 0 "alice@PsiAdirondackBot"
           (PStr "s3cret") (PStr "t0") []); reflexivity.
Defined.

(** X5. The result of [login] never carries a password: whenever it
    returns, the second component is [None], also after a fallback that
    created a bot password.  The identity it returns is the one it was
    given or that identity followed by [@PsiAdirondackBot]. *)
Theorem login_result remote depth username password token h u p d :
  login remote depth username password token h = (Ok (u, p), d) ->
  p = PNone
  /\ (u = username \/ u = (username ++ "@" ++ DEFAULT_BOT_SUFFIX)%string).
Proof.
  destruct depth as [|depth]; [discriminate|]. cbn [login].
  intros H. apply try_reraise_inv_ok in H.
  repeat match type of H with
         | bind _ _ _ = (Ok _, _) =>
             apply bind_inv_ok in H; destruct H as (? & ? & ? & _ & H & _)
         end.
  destruct (is_str _ "Success").
  - unfold ret in H. injection H as <- <- _. auto.
  - apply bind_inv_ok in H. destruct H as (code & ? & ? & _ & H & _).
    destruct (is_str code "WrongPass" && negb (str_in "@" username)).
    + apply bind_inv_ok in H. destruct H as (? & ? & ? & _ & H & _).
      apply bind_inv_ok in H. destruct H as ([bu bp] & ? & ? & Hbot & H & _).
      apply bot_identity in Hbot. subst bu.
      apply bind_inv_ok in H. destruct H as (new_token & ? & ? & _ & H & _).
      destruct depth as [|depth]; [discriminate|].
      match type of H with
      | login _ _ _ _ _ ?hh = _ =>
          pose proof (login_scoped_run remote depth
                        (username ++ "@" ++ DEFAULT_BOT_SUFFIX) bp new_token hh
                        (at_sign_in_scoped_identity username DEFAULT_BOT_SUFFIX))
            as Hs
      end.
      cbv zeta in Hs. rewrite H in Hs.
      destruct (login_accepted _).
      * inversion Hs; subst. auto.
      * destruct Hs as [e Hs]. discriminate.
    + apply bind_inv_ok in H. destruct H as (? & ? & ? & _ & H & _).
      discriminate.
Qed.

Lemma login_result_witness :
  fst (login provisions_then_down 10 "alice" (PStr "pw") (PStr "t0")
         [Http login_token_request (login_token_reply "t0")])
  = Ok ("alice@PsiAdirondackBot", PNone)
  /\ (PNone = PNone
      /\ ("alice@PsiAdirondackBot" = "alice"
          \/ "alice@PsiAdirondackBot"
             = ("alice" ++ "@" ++ DEFAULT_BOT_SUFFIX)%string)).
Proof.
  split; [reflexivity|].
  apply (login_result provisions_then_down 10 "alice" (PStr "pw") (PStr "t0")
           [Http login_token_request (login_token_reply "t0")]
           "alice@PsiAdirondackBot" PNone
           (snd (login provisions_then_down 10 "alice" (PStr "pw") (PStr "t0")
                   [Http login_token_request (login_token_reply "t0")]))).
  reflexivity.
Defined.

(** X6. A refusal that is not a wrong password is terminal.  When the
    login envelope reports neither [Success] nor the code [WrongPass],
    [login] makes no further request: it raises the RuntimeError that
    carries the remote's message, or [Unknown error] when there is none,
    after logging it once. *)
Theorem login_refusal_terminal remote depth username password token h lg :
  let rq := login_request username password token in
  login_envelope (remote h rq) = Some lg ->
  (forall v, lookup "result" lg = Some v -> is_str v "Success" = false) ->
  (forall v, lookup "code" lg = Some v -> is_str v "WrongPass" = false) ->
  let e :=
    RuntimeError
      [Lit "Login failed: ";
       Val (match lookup "message" lg with
            | Some m => m
            | None => PStr "Unknown error"
            end)] in
  login remote (S depth) username password token h
  = (Raise e, [Http rq (remote h rq);
               Log ERROR [Lit "Login error: "; StrOf e]]).
Proof.
  intros rq Henv Hres Hcode e. subst e. cbn [login].
  unfold try_except, bind, send, raise_for_status, json, lift, logger, ret,
    raise, py_get.
  fold rq. unfold login_envelope, status_ok in Henv.
  destruct (remote h rq) as [|rs]; [discriminate|].
  destruct ((400 <=? status_code rs) && (status_code rs <? 600));
    cbn [negb] in Henv; [discriminate|].
  destruct (json_body rs) as [[| | | | |top]|]; try discriminate.
  cbn [app fst snd].
  assert (Hdata :
    match lookup "login" top with
    | Some x => x
    | None => PDict []
    end = PDict lg).
  { destruct (lookup "login" top) as [[| | | | |lg']|]; try discriminate;
      congruence. }
  rewrite Hdata. cbn [app fst snd].
  destruct (lookup "result" lg) as [res|] eqn:Er; cbn [app fst snd is_str].
  - rewrite (Hres res eq_refl). cbn [app fst snd].
    destruct (lookup "code" lg) as [code|] eqn:Ec; cbn [app fst snd is_str andb].
    + rewrite (Hcode code eq_refl). cbn [app fst snd andb]. reflexivity.
    + reflexivity.
  - destruct (lookup "code" lg) as [code|] eqn:Ec; cbn [app fst snd is_str andb].
    + rewrite (Hcode code eq_refl). cbn [app fst snd andb]. reflexivity.
    + reflexivity.
Qed.

Lemma login_refusal_terminal_witness :
  login throttles_login 5 "alice" (PStr "pw") (PStr "t0") []
  = (Raise (RuntimeError [Lit "Login failed: "; Val (PStr "wait")]),
     [Http (login_request "alice" (PStr "pw") (PStr "t0"))
        (throttles_login [] (login_request "alice" (PStr "pw") (PStr "t0")));
      Log ERROR [Lit "Login error: ";
                 StrOf (RuntimeError [Lit "Login failed: "; Val (PStr "wait")])]]).
Proof.
  apply (login_refusal_terminal throttles_login 4 "alice" (PStr "pw")
           (PStr "t0") []
           [("result", PStr "Failed"); ("code", PStr "Throttled");
            ("message", PStr "wait")]).
  - reflexivity.
  - intros v H. cbn in H. injection H as <-. reflexivity.
  - intros v H. cbn in H. injection H as <-. reflexivity.
Defined.

(** X7. [create_bot_password] returns only what the remote granted: when
    it returns, its last exchange is the bot password request, answered
    with a non-error status and [botpasswords.status == "success"], and the
    password it returns is the [password] entry of that answer. *)
Theorem create_bot_password_returns_grant remote depth main_username
    main_password botname h bot_username bot_password d :
  create_bot_password remote depth main_username main_password botname h
  = (Ok (bot_username, bot_password), d) ->
  exists d0 csrf_token rs body res,
    d = d0 ++ [Http (botpasswords_request csrf_token botname) (Answer rs)]
    /\ status_ok rs = true
    /\ json_body rs = Some body
    /\ py_get body "botpasswords" (PDict []) = Ok res
    /\ py_get res "status" PNone = Ok (PStr "success")
    /\ getitem res "password" = Ok bot_password.
Proof.
  destruct depth as [|depth]; [discriminate|]. cbn [create_bot_password].
  intros H. apply try_reraise_inv_ok in H.
  apply bind_inv_ok in H. destruct H as (login_token & d1 & ? & _ & H & ->).
  apply bind_inv_ok in H. destruct H as (? & d2 & ? & _ & H & ->).
  apply bind_inv_ok in H. destruct H as (csrf_token & d3 & ? & _ & H & ->).
  apply bind_inv_ok in H. destruct H as (rs & d4 & ? & Hsend & H & ->).
  apply send_inv_ok in Hsend. subst d4.
  apply bind_inv_ok in H. destruct H as (? & ? & ? & Hst & H & ->).
  apply raise_for_status_inv_ok in Hst. destruct Hst as [Hst ->].
  apply bind_inv_ok in H. destruct H as (body & ? & ? & Hj & H & ->).
  apply json_inv_ok in Hj. destruct Hj as [Hj ->].
  apply bind_inv_ok in H. destruct H as (res & ? & ? & Hres & H & ->).
  apply lift_inv_ok in Hres. destruct Hres as [Hres ->].
  apply bind_inv_ok in H. destruct H as (status & ? & ? & Hs & H & ->).
  apply lift_inv_ok in Hs. destruct Hs as [Hs ->].
  destruct (is_str status "success") eqn:Hok.
  - apply is_str_eq in Hok. subst status.
    apply bind_inv_ok in H. destruct H as (pw & ? & ? & Hp & H & ->).
    apply lift_inv_ok in Hp. destruct Hp as [Hp ->].
    unfold ret in H. injection H as _ <- <-.
    exists (d1 ++ d2 ++ d3), csrf_token, rs, body, res.
    split; [|auto].
    cbn [app]. rewrite <- !app_assoc. reflexivity.
  - apply bind_inv_ok in H. destruct H as (? & ? & ? & _ & H & _).
    discriminate.
Qed.

Lemma create_bot_password_returns_grant_witness :
  exists d0 csrf_token rs body res,
    snd (create_bot_password grants_bot_password 2 "alice" (PStr "pw")
           DEFAULT_BOT_SUFFIX [])
    = d0 ++ [Http (botpasswords_request csrf_token DEFAULT_BOT_SUFFIX)
               (Answer rs)]
    /\ status_ok rs = true
    /\ json_body rs = Some body
    /\ py_get body "botpasswords" (PDict []) = Ok res
    /\ py_get res "status" PNone = Ok (PStr "success")
    /\ getitem res "password" = Ok (PStr "s3cret").
Proof.
  apply (create_bot_password_returns_grant grants_bot_password 2 "alice"
           (PStr "pw") DEFAULT_BOT_SUFFIX [] "alice@PsiAdirondackBot").
  reflexivity.
Defined.

(** ** More on the publisher *)

(** X8. A negative [retries] leaves the loop without a single iteration:
    [edit_page] returns [None] and has sent nothing. *)
Theorem edit_page_without_attempts remote title content summary retries h :
  retries < 0 ->
  edit_page remote title content summary retries h = (Ok PNone, []).
Proof.
  intros Hneg. unfold edit_page, range.
  replace (Z.to_nat (retries + 1)) with 0%nat by lia. reflexivity.
Qed.

Lemma edit_page_without_attempts_witness :
  edit_page accepts_edit "T" "text" "s" (-3) [] = (Ok PNone, []).
Proof.
  apply (edit_page_without_attempts accepts_edit "T" "text" "s" (-3) []). lia.
Defined.

(** X9. [edit_page] stops at the first edit the remote accepts: the
    accepted submission is the last event of the call and no earlier
    submission was accepted, so one call never publishes twice. *)
Theorem edit_page_stops_at_accepted remote title content summary retries h :
  let d := snd (edit_page remote title content summary retries h) in
  existsb edit_succeeded d = false
  \/ exists d' ev,
      d = d' ++ [ev]
      /\ edit_succeeded ev = true
      /\ existsb edit_succeeded d' = false.
Proof.
  cbv zeta. unfold edit_page. revert h.
  generalize (range (retries + 1)) as attempts.
  induction attempts as [|a rest IH]; intros h; [left; reflexivity|].
  rewrite edit_page_loop_step.
  destruct (edit_attempt remote title content summary h) as [[v|e] d] eqn:Ha.
  - right. cbn [snd].
    destruct (edit_attempt_cases remote title content summary h)
      as [(rp & e & _ & Hc) | (rs & t & rp & _ & Hc)];
      rewrite Hc in Ha; [discriminate|].
    injection Ha as Hv <-.
    destruct (edit_verdict_ok _ _ _ Hv) as (Hs & _).
    exists [Http csrf_token_request (Answer rs)],
      (Http (edit_request title content t summary) rp).
    split; [reflexivity|]. split; [|reflexivity].
    cbn [edit_succeeded]. rewrite Hs. reflexivity.
  - destruct (edit_attempt_raises _ _ _ _ _ _ _ Ha) as (Hex & _ & _).
    destruct (retryable retries a e); cbn [fst snd]; [|left; exact Hex].
    destruct (retry_record_is_log a e) as [msg ->].
    destruct (IH ((h ++ d) ++ [Log WARNING msg]))
      as [Hnone | (d' & ev & -> & Hev & Hbefore)].
    + left. rewrite existsb_app, Hex. cbn [existsb edit_succeeded orb].
      exact Hnone.
    + right. exists (d ++ Log WARNING msg :: d'), ev.
      split; [rewrite <- app_assoc; reflexivity|]. split; [exact Hev|].
      rewrite existsb_app, Hex. cbn [existsb edit_succeeded orb].
      exact Hbefore.
Qed.

(** Each attempt submits at most one edit, after its token fetch. *)
Lemma edit_attempt_posts remote title content summary h :
  (edit_posts (snd (edit_attempt remote title content summary h)) <= 1)%nat.
Proof.
  destruct (edit_attempt_cases remote title content summary h)
    as [(rp & e & _ & ->) | (rs & t & rp & _ & ->)]; cbn; lia.
Qed.

(** X10. One call of [edit_page] never submits more edits than it fetched
    tokens, and for [retries >= 0] never more than [retries + 1]. *)
Theorem edit_page_edits_bounded remote title content summary retries h :
  0 <= retries ->
  let d := snd (edit_page remote title content summary retries h) in
  (edit_posts d <= csrf_fetches d)%nat
  /\ Z.of_nat (edit_posts d) <= retries + 1.
Proof.
  intros Hr. cbv zeta. unfold edit_page.
  assert (Hposts : forall attempts h',
    (edit_posts (snd (edit_page_loop remote title content summary retries
                        attempts h'))
     <= csrf_fetches (snd (edit_page_loop remote title content summary retries
                             attempts h')))%nat).
  { induction attempts as [|a rest IH]; intros h'; [cbn; lia|].
    rewrite edit_page_loop_step.
    pose proof (edit_attempt_posts remote title content summary h') as Hp.
    pose proof (edit_attempt_fetches remote title content summary h') as Hf.
    destruct (edit_attempt remote title content summary h') as [[v|e] d];
      cbn [snd] in *; [lia|].
    destruct (retryable retries a e); cbn [snd]; [|lia].
    destruct (retry_record_is_log a e) as [msg ->].
    specialize (IH ((h' ++ d) ++ [Log WARNING msg])).
    rewrite edit_posts_app, csrf_fetches_app.
    unfold edit_posts, csrf_fetches in *.
    cbn [filter is_edit_post is_csrf_fetch]. lia. }
  split; [apply Hposts|].
  pose proof (Hposts (range (retries + 1)) h) as H1.
  pose proof (edit_page_loop_fetches remote title content summary retries
                (range (retries + 1)) h) as H2.
  rewrite length_range in H2. lia.
Qed.

Lemma edit_page_edits_bounded_witness :
  (edit_posts (snd (edit_page rate_limited_then_fine "T" "text" "s" 2 []))
   <= csrf_fetches (snd (edit_page rate_limited_then_fine "T" "text" "s" 2 [])))%nat
  /\ Z.of_nat (edit_posts (snd (edit_page rate_limited_then_fine "T" "text" "s"
                                  2 []))) <= 2 + 1.
Proof.
  apply (edit_page_edits_bounded rate_limited_then_fine "T" "text" "s" 2 []).
  lia.
Defined.

Lemma warnings_app d1 d2 : warnings (d1 ++ d2) = (warnings d1 + warnings d2)%nat.
Proof. unfold warnings. rewrite filter_app, length_app. reflexivity. Qed.

(** An attempt logs no warning of its own. *)
Lemma edit_attempt_warnings remote title content summary h :
  warnings (snd (edit_attempt remote title content summary h)) = 0%nat.
Proof.
  destruct (edit_attempt_cases remote title content summary h)
    as [(rp & e & _ & ->) | (rs & t & rp & _ & ->)]; reflexivity.
Qed.

(** X11. Every retry is announced by exactly one warning: for
    [retries >= 0] the warnings of a call are one fewer than its token
    fetches, that is, than the attempts it made. *)
Theorem edit_page_warns_once_per_retry remote title content summary retries h :
  0 <= retries ->
  let d := snd (edit_page remote title content summary retries h) in
  (warnings d + 1 = csrf_fetches d)%nat.
Proof.
  intros Hr. cbv zeta. unfold edit_page.
  pose proof (range_nonempty retries Hr) as Hne.
  pose proof (upto_range retries Hr) as Hup. revert h Hne Hup.
  generalize (range (retries + 1)) as attempts.
  induction attempts as [|a rest IH]; intros h Hne Hup; [congruence|].
  rewrite edit_page_loop_step.
  pose proof (edit_attempt_warnings remote title content summary h) as Hw.
  pose proof (edit_attempt_fetches remote title content summary h) as Hf.
  destruct (edit_attempt remote title content summary h) as [[v|e] d];
    cbn [snd] in *; [lia|].
  destruct (retryable retries a e) eqn:Hretry; cbn [snd]; [|lia].
  destruct (retry_record_is_log a e) as [msg ->].
  rewrite warnings_app, csrf_fetches_app.
  destruct (upto_cons _ _ _ Hup) as [(_ & Hup' & Hne') | (Hge & _)].
  - specialize (IH ((h ++ d) ++ [Log WARNING msg]) Hne' Hup').
    unfold warnings, csrf_fetches in *.
    cbn [filter is_warning is_csrf_fetch List.length]. lia.
  - destruct e; cbn [retryable] in Hretry; rewrite Hge in Hretry;
      rewrite ?andb_false_r in Hretry; discriminate.
Qed.

Lemma edit_page_warns_once_per_retry_witness :
  (warnings (snd (edit_page rate_limited_then_fine "T" "text" "s" 2 [])) + 1
   = csrf_fetches (snd (edit_page rate_limited_then_fine "T" "text" "s" 2 [])))%nat.
Proof.
  apply (edit_page_warns_once_per_retry rate_limited_then_fine "T" "text" "s"
           2 []).
  lia.
Defined.

(** ** More on the command line *)

(** X12. When the template does not render, [main] contacts nobody: it
    logs the template error, raises the RuntimeError that wraps it, and its
    two error records are all it emits. *)
Theorem main_render_failure remote render_template recursion_limit args env
    console h e :
  render_template (arg_template args) (main_context args) = Raise e ->
  let failure := RuntimeError [Lit "Could not render template: "; StrOf e] in
  main remote render_template recursion_limit args env console h
  = (Raise failure,
     [Log ERROR [Lit "Template error: "; StrOf e];
      Log ERROR [Lit "Publishing failed: "; StrOf failure]]).
Proof.
  intros Hrender failure. subst failure.
  unfold main, render_content, try_except, bind, lift, logger, raise.
  unfold main_context in Hrender. rewrite Hrender. reflexivity.
Qed.

Lemma main_render_failure_witness :
  exchanges
    (snd (main accepts_edit (fails_to_render KeyError) 10 cli_args no_environ
            silent_console []))
  = 0%nat.
Proof.
  rewrite (main_render_failure accepts_edit (fails_to_render KeyError) 10
             cli_args no_environ silent_console [] KeyError); reflexivity.
Defined.

(** X13. When the command line gives both a user name and a password,
    neither the environment nor the prompt has any influence on the run. *)
Theorem main_command_line_credentials remote render_template recursion_limit
    args env console env' console' h u p :
  arg_username args = Some u -> arg_password args = Some p ->
  u <> "" -> p <> "" ->
  main remote render_template recursion_limit args env console h
  = main remote render_template recursion_limit args env' console' h.
Proof.
  intros Hu Hp Hune Hpne. unfold main, py_or, nonempty.
  rewrite Hu, Hp.
  apply String.eqb_neq in Hune. apply String.eqb_neq in Hpne.
  rewrite Hune, Hpne. cbn [negb andb]. rewrite Hune, Hpne. reflexivity.
Qed.

Lemma main_command_line_credentials_witness :
  main accepts_edit (renders "text") 10 cli_args no_environ silent_console []
  = main accepts_edit (renders "text") 10 cli_args
      (mkEnviron (Some "bob") (Some "hunter2")) (mkConsole "carol" "x") [].
Proof.
  apply (main_command_line_credentials accepts_edit (renders "text") 10
           cli_args no_environ silent_console
           (mkEnviron (Some "bob") (Some "hunter2")) (mkConsole "carol" "x") []
           "alice" "pw"); try reflexivity; discriminate.
Defined.

(** X14. When neither the command line nor the environment gives a
    password, the [--username] argument is dropped: [main] falls back to
    [get_user_credentials], which reads the user name from the environment
    or the prompt, so the run is the same whatever [--username] was. *)
Theorem main_prompt_ignores_username remote render_template recursion_limit
    args env console h u' :
  nonempty (py_or (arg_password args) (WIKI_PASS env)) = false ->
  main remote render_template recursion_limit (with_username u' args) env
    console h
  = main remote render_template recursion_limit args env console h.
Proof.
  intros Hpw. unfold main, with_username.
  cbn [arg_username arg_password arg_title arg_template arg_summary arg_name
       arg_desc arg_features].
  assert (Hcred : forall username,
    match username, py_or (arg_password args) (WIKI_PASS env) with
    | Some u, Some p =>
        if nonempty username
           && nonempty (py_or (arg_password args) (WIKI_PASS env))
        then (u, p)
        else get_user_credentials env console
    | _, _ => get_user_credentials env console
    end = get_user_credentials env console).
  { intros username. rewrite Hpw, andb_false_r.
    destruct username, (py_or (arg_password args) (WIKI_PASS env));
      reflexivity. }
  rewrite !Hcred. reflexivity.
Qed.

Lemma main_prompt_ignores_username_witness :
  main accepts_login (renders "text") 10
    (with_username (Some "alice")
       (mkArgs None None "T" DEFAULT_TEMPLATE DEFAULT_SUMMARY "n" "d" []))
    no_environ (mkConsole " bob " " pw ") []
  = main accepts_login (renders "text") 10
      (mkArgs None None "T" DEFAULT_TEMPLATE DEFAULT_SUMMARY "n" "d" [])
      no_environ (mkConsole " bob " " pw ") [].
Proof.
  apply (main_prompt_ignores_username accepts_login (renders "text") 10
           (mkArgs None None "T" DEFAULT_TEMPLATE DEFAULT_SUMMARY "n" "d" [])
           no_environ (mkConsole " bob " " pw ") [] (Some "alice")).
  reflexivity.
Defined.

Lemma quiet_existsb d :
  Forall (fun ev => edit_succeeded ev = false) d ->
  existsb edit_succeeded d = false.
Proof.
  induction 1 as [|ev d Hev _ IH]; [reflexivity|].
  cbn [existsb]. rewrite Hev, IH. reflexivity.
Qed.

Lemma bind_accepting {A B} (m : M A) (f : A -> M B) :
  emits (fun ev => edit_succeeded ev = false) m ->
  (forall a, accepting (f a)) ->
  accepting (bind m f).
Proof.
  intros Hm Hf h. unfold bind. specialize (Hm h). apply quiet_existsb in Hm.
  destruct (m h) as [[a|e] d1]; cbn [fst snd] in *.
  - specialize (Hf a (h ++ d1)). destruct (f a (h ++ d1)) as [r d2].
    cbn [fst snd] in *. rewrite existsb_app, Hm. exact Hf.
  - rewrite Hm. split; [intros [? ?]|]; discriminate.
Qed.

Lemma try_reraise_accepting {A} (m : M A) prefix :
  accepting m ->
  accepting (try_except m
               (fun e => logger ERROR [Lit prefix; StrOf e] ;; raise e)).
Proof.
  intros Hm h. unfold try_except, bind, logger, raise. specialize (Hm h).
  destruct (m h) as [[a|e] d1]; cbn [fst snd app] in *; [exact Hm|].
  rewrite existsb_app. cbn [existsb edit_succeeded orb].
  rewrite orb_false_r. exact Hm.
Qed.

Lemma session_request_not_accepted rq rp :
  session_request rq -> edit_succeeded (Http rq rp) = false.
Proof. intros []; reflexivity. Qed.

Lemma main_publish_accepting remote args content final_username bot_password :
  accepting (main_publish remote args content final_username bot_password).
Proof.
  intros h. unfold main_publish.
  destruct (edit_page_loop_outcome remote (arg_title args) content
              (arg_summary args) 2 (range (2 + 1)) h) as [Hiff _].
  assert (Hcases :
    (exists revid,
        fst (edit_page remote (arg_title args) content (arg_summary args) 2 h)
        = Ok (edit_success revid (arg_title args)))
    \/ (exists e,
        fst (edit_page remote (arg_title args) content (arg_summary args) 2 h)
        = Raise e)).
  { apply edit_page_loop_exits;
      [apply range_nonempty | apply upto_range]; lia. }
  fold (edit_page remote (arg_title args) content (arg_summary args) 2 h)
    in Hiff.
  destruct (edit_page remote (arg_title args) content (arg_summary args) 2 h)
    as [r d] eqn:Hpub.
  cbn [fst snd] in *.
  destruct Hcases as [[revid ->] | [e ->]].
  - rewrite (bind_ok _ _ _ _ _ Hpub).
    unfold bind, lift, logger, ret, getitem, edit_success.
    cbn [lookup String.eqb Ascii.eqb Bool.eqb truthy fst snd app].
    assert (Hd : existsb edit_succeeded d = true) by (apply Hiff; eauto).
    destruct (truthy bot_password); cbn [fst snd app];
      rewrite existsb_app, Hd; split; eauto.
  - rewrite (bind_raise _ _ _ _ _ Hpub). cbn [fst snd].
    split; [intros [? ?]; discriminate|].
    intros Hd. apply Hiff in Hd. destruct Hd as [? ?]. discriminate.
Qed.

(** X15. [main] returns normally exactly when the remote accepted an edit
    during the run; in every other case it raises.  Nothing before the
    publish step, neither the rendering nor the login with its fallback,
    can make an edit. *)
Theorem main_returns_iff_edit_accepted remote render_template recursion_limit
    args env console h :
  let run := main remote render_template recursion_limit args env console h in
  fst run = Ok tt <-> existsb edit_succeeded (snd run) = true.
Proof.
  cbv zeta.
  assert (Hacc : accepting
            (main remote render_template recursion_limit args env console)).
  { unfold main. apply try_reraise_accepting.
    apply bind_accepting.
    { unfold render_content. repeat emits_step. apply emits_logger. reflexivity. }
    intros content. apply bind_accepting.
    { apply get_login_token_emits;
        [reflexivity | apply session_request_not_accepted]. }
    intros login_token. apply bind_accepting.
    { apply (session_emits (fun ev => edit_succeeded ev = false) remote);
        [reflexivity | apply session_request_not_accepted]. }
    intros [final_username bot_password]. apply main_publish_accepting. }
  specialize (Hacc h). rewrite <- Hacc. split; [eauto|].
  intros [[] H]. exact H.
Qed.

(** ** More on wiki_client.py *)

Lemma emits_nothing {A} (m : M A) h : emits (fun _ => False) m -> snd (m h) = [].
Proof.
  intros Hm. specialize (Hm h). destruct (snd (m h)); [reflexivity|].
  inversion Hm; contradiction.
Qed.

(** Where an edit can sit in a run whose earlier events are no edits. *)
Lemma edit_after_quiet pre x d1 ev d2 :
  Forall (fun e => is_edit_post e = false) pre ->
  pre ++ [x] = d1 ++ ev :: d2 ->
  is_edit_post ev = true ->
  d1 = pre /\ ev = x /\ d2 = [].
Proof.
  intros Hpre. revert d1. induction Hpre as [|p pre Hp _ IH]; intros d1 Heq Hev.
  - destruct d1 as [|y d1]; cbn [app] in Heq.
    + injection Heq as -> <-. auto.
    + injection Heq as _ Heq. destruct d1; discriminate.
  - destruct d1 as [|y d1]; cbn [app] in Heq.
    + injection Heq as -> _. congruence.
    + injection Heq as <- Heq. destruct (IH d1 Heq Hev) as (-> & -> & ->).
      auto.
Qed.

Lemma no_edit_in_quiet d d1 ev d2 :
  Forall (fun e => is_edit_post e = false) d ->
  d = d1 ++ ev :: d2 -> is_edit_post ev = true -> False.
Proof.
  intros Hd -> Hev. apply Forall_app in Hd. destruct Hd as [_ Hd].
  inversion Hd; congruence.
Qed.

Lemma client_make_session_quiet remote username password :
  emits (fun ev => is_edit_post ev = false)
    (WikiClient.make_session remote username password).
Proof.
  unfold WikiClient.make_session.
  repeat emits_step; apply emits_send; reflexivity.
Qed.

Lemma client_get_csrf_token_quiet remote :
  emits (fun ev => is_edit_post ev = false) (WikiClient.get_csrf_token remote).
Proof.
  unfold WikiClient.get_csrf_token.
  repeat emits_step; apply emits_send; reflexivity.
Qed.

(** A request followed by computations that emit nothing. *)
Lemma send_then_silent {A} remote rq (k : Response -> M A) h :
  (forall rs, emits (fun _ => False) (k rs)) ->
  snd (bind (send remote rq) k h) = [Http rq (remote h rq)].
Proof.
  intros Hk. unfold bind, send. destruct (remote h rq) as [|rs]; [reflexivity|].
  pose proof (emits_nothing (k rs) (h ++ [Http rq (Answer rs)]) (Hk rs)) as Hs.
  destruct (k rs (h ++ [Http rq (Answer rs)])) as [r d2]. cbn [snd] in *.
  subst d2. reflexivity.
Qed.

(** X16. [make_session] of wiki_client.py returns only after two
    exchanges: the login token query, and the login that carries the token
    of its answer and is answered with [login.result == "Success"].  The
    HTTP status of neither answer is looked at. *)
Theorem client_make_session_returns remote username password h d :
  WikiClient.make_session remote username password h = (Ok tt, d) ->
  exists rs1 login_token rs2,
    d = [Http WikiClient.login_token_request (Answer rs1);
         Http (WikiClient.login_request username password login_token)
           (Answer rs2)]
    /\ client_token_in "logintoken" rs1 = Some login_token
    /\ client_login_accepted rs2 = true.
Proof.
  unfold WikiClient.make_session. intros H.
  apply bind_inv_ok in H. destruct H as (rs1 & ? & ? & Hs1 & H & ->).
  apply send_inv_ok in Hs1. subst.
  apply bind_inv_ok in H. destruct H as (body1 & ? & ? & Hj1 & H & ->).
  apply json_inv_ok in Hj1. destruct Hj1 as [Hj1 ->].
  apply bind_inv_ok in H. destruct H as (query & ? & ? & Hq & H & ->).
  apply lift_inv_ok in Hq. destruct Hq as [Hq ->].
  apply bind_inv_ok in H. destruct H as (tokens & ? & ? & Ht & H & ->).
  apply lift_inv_ok in Ht. destruct Ht as [Ht ->].
  apply bind_inv_ok in H. destruct H as (login_token & ? & ? & Hl & H & ->).
  apply lift_inv_ok in Hl. destruct Hl as [Hl ->].
  apply bind_inv_ok in H. destruct H as (rs2 & ? & ? & Hs2 & H & ->).
  apply send_inv_ok in Hs2. subst.
  apply bind_inv_ok in H. destruct H as (body2 & ? & ? & Hj2 & H & ->).
  apply json_inv_ok in Hj2. destruct Hj2 as [Hj2 ->].
  apply bind_inv_ok in H. destruct H as (login_data & ? & ? & Hd & H & ->).
  apply lift_inv_ok in Hd. destruct Hd as [Hd ->].
  apply bind_inv_ok in H. destruct H as (res & ? & ? & Hr & H & ->).
  apply lift_inv_ok in Hr. destruct Hr as [Hr ->].
  destruct (is_str res "Success") eqn:Hok; cbn [negb] in H; [|discriminate].
  unfold ret in H. injection H as <-.
  exists rs1, login_token, rs2. split; [reflexivity|]. split.
  - unfold client_token_in. rewrite Hj1, Hq, Ht, Hl. reflexivity.
  - unfold client_login_accepted. rewrite Hj2.
    unfold py_get in Hd, Hr.
    destruct body2 as [| | | | |top]; try discriminate.
    injection Hd as <-.
    destruct (lookup "login" top) as [[| | | | |e]|]; try discriminate.
    + destruct (lookup "result" e); injection Hr as <-;
        [exact Hok | discriminate].
    + cbn in Hr. injection Hr as <-. discriminate.
Qed.

Lemma client_make_session_returns_witness :
  exists rs1 login_token rs2,
    snd (WikiClient.make_session client_accepts_all (PStr "Bot@crm") (PStr "pw") [])
    = [Http WikiClient.login_token_request (Answer rs1);
       Http (WikiClient.login_request (PStr "Bot@crm") (PStr "pw") login_token)
         (Answer rs2)]
    /\ client_token_in "logintoken" rs1 = Some login_token
    /\ client_login_accepted rs2 = true.
Proof.
  apply (client_make_session_returns client_accepts_all (PStr "Bot@crm")
           (PStr "pw") []).
  reflexivity.
Defined.

(** X17. [publish_page] makes a single attempt.  An edit appears in its
    events only as the last one, after [make_session] and [get_csrf_token]
    both returned, and it carries the title, the content and the summary it
    was called with and the token just fetched. *)
Theorem publish_page_single_edit remote username password title content
    summary h d1 ev d2 :
  snd (WikiClient.publish_page remote username password title content summary h)
  = d1 ++ ev :: d2 ->
  is_edit_post ev = true ->
  d2 = []
  /\ exists ds dc csrf_token rp,
      WikiClient.make_session remote username password h = (Ok tt, ds)
      /\ WikiClient.get_csrf_token remote (h ++ ds) = (Ok csrf_token, dc)
      /\ d1 = ds ++ dc
      /\ ev = Http (WikiClient.edit_request title (PStr content) csrf_token
                      summary) rp.
Proof.
  unfold WikiClient.publish_page. intros Hd Hev.
  pose proof (client_make_session_quiet remote username password h) as Hqs.
  destruct (WikiClient.make_session remote username password h)
    as [[[]|e] ds] eqn:Hs; cbn [snd] in Hqs.
  2:{ rewrite (bind_raise _ _ _ _ _ Hs) in Hd. cbn [snd] in Hd.
      destruct (no_edit_in_quiet _ _ _ _ Hqs Hd Hev). }
  rewrite (bind_ok _ _ _ _ _ Hs) in Hd. cbn [snd] in Hd.
  pose proof (client_get_csrf_token_quiet remote (h ++ ds)) as Hqc.
  destruct (WikiClient.get_csrf_token remote (h ++ ds)) as [[t|e] dc] eqn:Hc;
    cbn [snd] in Hqc.
  2:{ rewrite (bind_raise _ _ _ _ _ Hc) in Hd. cbn [snd] in Hd.
      assert (Hq : Forall (fun e => is_edit_post e = false) (ds ++ dc))
        by (apply Forall_app; auto).
      destruct (no_edit_in_quiet _ _ _ _ Hq Hd Hev). }
  rewrite (bind_ok _ _ _ _ _ Hc) in Hd. cbn [snd] in Hd.
  rewrite send_then_silent in Hd.
  2:{ intros rs. repeat emits_step. }
  rewrite app_assoc in Hd.
  assert (Hq : Forall (fun e => is_edit_post e = false) (ds ++ dc))
    by (apply Forall_app; auto).
  destruct (edit_after_quiet _ _ _ _ _ Hq Hd Hev) as (-> & -> & ->).
  split; [reflexivity|]. eauto 8.
Qed.

Lemma publish_page_single_edit_witness :
  exists ds dc csrf_token rp,
    WikiClient.make_session client_accepts_all (PStr "Bot@crm") (PStr "pw") []
    = (Ok tt, ds)
    /\ WikiClient.get_csrf_token client_accepts_all ([] ++ ds)
       = (Ok csrf_token, dc)
    /\ firstn 3
         (snd (WikiClient.publish_page client_accepts_all (PStr "Bot@crm")
                 (PStr "pw") "T" "text" "s" []))
       = ds ++ dc
    /\ Http (WikiClient.edit_request "T" (PStr "text") (PStr "c0") "s")
         (edit_success_reply 7)
       = Http (WikiClient.edit_request "T" (PStr "text") csrf_token "s") rp.
Proof.
  apply (publish_page_single_edit client_accepts_all (PStr "Bot@crm")
           (PStr "pw") "T" "text" "s" [] _ _ []); reflexivity.
Defined.

Lemma publish_page_success_exit_witness :
  exists d0 csrf_token rs res edit revid,
    snd (WikiClient.publish_page client_accepts_all (PStr "Bot@crm") (PStr "pw")
           "T" "text" "s" [])
    = d0 ++ [Http (WikiClient.edit_request "T" (PStr "text") csrf_token "s")
               (Answer rs)]
    /\ json_body rs = Some res
    /\ getitem res "edit" = Ok edit
    /\ getitem edit "result" = Ok (PStr "Success")
    /\ getitem edit "newrevid" = Ok revid
    /\ PDict [("status", PStr "success"); ("page", PStr "T"); ("revid", PInt 7)]
       = PDict [("status", PStr "success"); ("page", PStr "T"); ("revid", revid)].
Proof.
  apply (publish_page_success_exit client_accepts_all (PStr "Bot@crm")
           (PStr "pw") "T" "text" "s" []).
  reflexivity.
Defined.

Lemma quiet_of_no_edit_posts d :
  edit_posts d = 0%nat -> Forall (fun ev => is_edit_post ev = false) d.
Proof.
  unfold edit_posts. induction d as [|ev d IH]; intros H; [constructor|].
  cbn [filter] in H. destruct (is_edit_post ev) eqn:Hev; [discriminate|].
  constructor; auto.
Qed.

(** Step 2 of [copy_page] emits the edit submission or nothing. *)
Lemma copy_page_write_events remote (str_strip str_lower : string -> string)
    from_title to_title reason csrf_token content h :
  snd (WikiClient.copy_page_write remote str_strip str_lower from_title
         to_title reason csrf_token content h) = []
  \/ exists s rp,
      content = PStr s
      /\ startswith (str_lower (str_strip s)) "#redirect" = false
      /\ snd (WikiClient.copy_page_write remote str_strip str_lower from_title
                to_title reason csrf_token content h)
         = [Http (WikiClient.edit_request to_title (PStr s) csrf_token reason) rp].
Proof.
  unfold WikiClient.copy_page_write.
  destruct content as [| | |s| |]; try (left; reflexivity).
  destruct (startswith (str_lower (str_strip s)) "#redirect") eqn:Hr.
  - left. reflexivity.
  - right. exists s.
    exists (remote (h ++ []) (WikiClient.edit_request to_title (PStr s)
                                csrf_token reason)).
    split; [reflexivity|]. split; [exact Hr|].
    unfold bind at 1. unfold ret at 1. cbn [app].
    match goal with
    | |- snd (let (r, d2) := ?X in (r, d2)) = _ =>
        transitivity (snd X); [destruct X; reflexivity|]
    end.
    rewrite send_then_silent; [reflexivity|].
    intros rs. repeat emits_step.
Qed.

(** X19. [copy_page] writes what it read.  An edit appears in its events
    only as the last one, after the fetch returned a string that is not a
    redirect, as Python's own [str.strip] and [str.lower] see it; its text
    is that string unchanged, its title the target title, and its token the
    one fetched before the read. *)
Theorem copy_page_writes_fetched_content remote username password
    (str_strip str_lower : string -> string) from_title to_title reason h
    d1 ev d2 :
  snd (WikiClient.copy_page remote username password str_strip str_lower
         from_title to_title reason h) = d1 ++ ev :: d2 ->
  is_edit_post ev = true ->
  exists csrf_token s rp,
    WikiClient.copy_page_fetch remote username password from_title h
    = (Ok (csrf_token, PStr s), d1)
    /\ startswith (str_lower (str_strip s)) "#redirect" = false
    /\ ev = Http (WikiClient.edit_request to_title (PStr s) csrf_token reason) rp
    /\ d2 = [].
Proof.
  unfold WikiClient.copy_page. intros Hd Hev.
  pose proof (copy_page_fetch_no_write remote username password from_title h)
    as Hq. apply quiet_of_no_edit_posts in Hq.
  destruct (WikiClient.copy_page_fetch remote username password from_title h)
    as [[[csrf_token content]|e] df] eqn:Hf; cbn [snd] in Hq.
  2:{ rewrite (bind_raise _ _ _ _ _ Hf) in Hd. cbn [snd] in Hd.
      destruct (no_edit_in_quiet _ _ _ _ Hq Hd Hev). }
  rewrite (bind_ok _ _ _ _ _ Hf) in Hd. cbn [snd] in Hd.
  destruct (copy_page_write_events remote str_strip str_lower from_title
              to_title reason csrf_token content (h ++ df))
    as [Hnone | (s & rp & -> & Hr & Hw)].
  - rewrite Hnone, app_nil_r in Hd.
    destruct (no_edit_in_quiet _ _ _ _ Hq Hd Hev).
  - rewrite Hw in Hd.
    destruct (edit_after_quiet _ _ _ _ _ Hq Hd Hev) as (-> & -> & ->).
    eauto 8.
Qed.

Lemma copy_page_writes_fetched_content_witness :
  exists csrf_token s rp,
    WikiClient.copy_page_fetch sandbox_is_article (PStr "Bot@crm") (PStr "pw")
      "User:Bot/sandbox" []
    = (Ok (csrf_token, PStr s),
       firstn 4
         (snd (WikiClient.copy_page sandbox_is_article (PStr "Bot@crm")
                 (PStr "pw") strip lower "User:Bot/sandbox" "Article" "r" [])))
    /\ startswith (lower (strip s)) "#redirect" = false
    /\ Http (WikiClient.edit_request "Article" (PStr "An article.") (PStr "c0")
               "r") (edit_success_reply 8)
       = Http (WikiClient.edit_request "Article" (PStr s) csrf_token "r") rp
    /\ @nil Event = [].
Proof.
  apply (copy_page_writes_fetched_content sandbox_is_article (PStr "Bot@crm")
           (PStr "pw") strip lower "User:Bot/sandbox" "Article" "r" [] _ _ []);
    reflexivity.
Defined.

(** X20. [copy_page] returns only when the remote accepted the new page:
    its last exchange is the edit, answered with [edit.result ==
    "Success"], and the dictionary it returns names the two titles. *)
Theorem copy_page_success_exit remote username password
    (str_strip str_lower : string -> string) from_title to_title reason h v d :
  WikiClient.copy_page remote username password str_strip str_lower from_title
    to_title reason h
  = (Ok v, d) ->
  v = PDict [("status", PStr "success"); ("from", PStr from_title);
             ("to", PStr to_title)]
  /\ exists d0 rq rs res edit,
      d = d0 ++ [Http rq (Answer rs)]
      /\ is_edit_post (Http rq (Answer rs)) = true
      /\ json_body rs = Some res
      /\ getitem res "edit" = Ok edit
      /\ getitem edit "result" = Ok (PStr "Success").
Proof.
  unfold WikiClient.copy_page. intros H.
  apply bind_inv_ok in H.
  destruct H as ([csrf_token content] & df & ? & _ & H & ->).
  unfold WikiClient.copy_page_write in H.
  apply bind_inv_ok in H. destruct H as (is_redirect & ? & ? & Hc & H & ->).
  destruct content as [| | |s| |]; try discriminate.
  unfold ret in Hc. injection Hc as <- <-.
  destruct (startswith (str_lower (str_strip s)) "#redirect"); [discriminate|].
  apply bind_inv_ok in H. destruct H as (rs & ? & ? & Hsend & H & ->).
  apply send_inv_ok in Hsend. subst.
  apply bind_inv_ok in H. destruct H as (res & ? & ? & Hjson & H & ->).
  apply json_inv_ok in Hjson. destruct Hjson as [Hjson ->].
  apply bind_inv_ok in H. destruct H as ([|] & ? & ? & Hok & H & ->);
    [|discriminate].
  apply edit_reported_success_true in Hok.
  destruct Hok as (-> & edit & Hedit & Hresult).
  unfold ret in H. injection H as <- <-.
  split; [reflexivity|].
  exists df, (WikiClient.edit_request to_title (PStr s) csrf_token reason),
    rs, res, edit.
  cbn [app]. auto.
Qed.

Lemma copy_page_success_exit_witness :
  exists d0 rq rs res edit,
    snd (WikiClient.copy_page sandbox_is_article (PStr "Bot@crm") (PStr "pw")
           strip lower "User:Bot/sandbox" "Article" "r" [])
    = d0 ++ [Http rq (Answer rs)]
    /\ is_edit_post (Http rq (Answer rs)) = true
    /\ json_body rs = Some res
    /\ getitem res "edit" = Ok edit
    /\ getitem edit "result" = Ok (PStr "Success").
Proof.
  refine (proj2 (copy_page_success_exit sandbox_is_article (PStr "Bot@crm")
                   (PStr "pw") strip lower "User:Bot/sandbox" "Article" "r" []
                   (PDict [("status", PStr "success");
                           ("from", PStr "User:Bot/sandbox");
                           ("to", PStr "Article")]) _ _)).
  reflexivity.
Defined.

(** ** The route of api.py *)

(** X21. The route writes to the sandbox and nowhere else: whatever title
    the request names, every edit it submits is made to
    [User:<WIKI_USERNAME>/sandbox]. *)
Theorem route_targets_sandbox remote wiki_username wiki_bot_password
    render_template format_exc request h :
  Forall (targets (Api.sandbox_title_of wiki_username))
    (snd (Api.publish_to_sandbox_only remote wiki_username wiki_bot_password
            render_template format_exc request h)).
Proof.
  unfold Api.publish_to_sandbox_only.
  assert (Hbody : emits (targets (Api.sandbox_title_of wiki_username))
            (Api.publish_to_sandbox_body remote wiki_username wiki_bot_password
               render_template request)).
  { unfold Api.publish_to_sandbox_body, Api.call_render_content.
    repeat emits_step;
      try solve [ apply emits_logger; exact I
                | apply emits_send; intros rp; cbn;
                  solve [discriminate | reflexivity] ]. }
  specialize (Hbody h).
  destruct (Api.publish_to_sandbox_body remote wiki_username wiki_bot_password
              render_template request h) as [[v|e] d]; cbn [snd] in *.
  - exact Hbody.
  - apply Forall_app. split; [exact Hbody|]. repeat constructor.
Qed.

Lemma logger_inv_ok lvl msg h u d :
  logger lvl msg h = (Ok u, d) -> d = [Log lvl msg].
Proof. unfold logger. intros H. injection H as _ <-. reflexivity. Qed.

(** X22. The route has two outcomes.  It returns the success dictionary
    with the sandbox title and its URL, or it raises [HTTPException] with
    status 500 and the text of the exception as detail, after one error
    record; no exception of the publishing code reaches the framework
    as it is. *)
Theorem route_outcome remote wiki_username wiki_bot_password render_template
    format_exc request h :
  let run :=
    Api.publish_to_sandbox_only remote wiki_username wiki_bot_password
      render_template format_exc request h in
  fst run = Api.Returned (sandbox_published wiki_username)
  \/ exists e d,
      Api.publish_to_sandbox_body remote wiki_username wiki_bot_password
        render_template request h = (Raise e, d)
      /\ run = (Api.HTTPException 500 [StrOf e],
                d ++ [Log ERROR [Lit "Error during sandbox publish: ";
                                 Lit (format_exc e)]]).
Proof.
  cbv zeta. unfold Api.publish_to_sandbox_only.
  destruct (Api.publish_to_sandbox_body remote wiki_username wiki_bot_password
              render_template request h) as [[v|e] d] eqn:Hb.
  - left. cbn [fst]. f_equal.
    unfold Api.publish_to_sandbox_body in Hb.
    repeat match type of Hb with
           | bind _ _ _ = (Ok _, _) =>
               apply bind_inv_ok in Hb; destruct Hb as (? & ? & ? & _ & Hb & _)
           end.
    destruct (negb (is_str _ "success")); [discriminate|].
    apply bind_inv_ok in Hb. destruct Hb as (? & ? & ? & _ & Hb & _).
    unfold ret in Hb. injection Hb as <- _. reflexivity.
  - right. exists e, d. auto.
Qed.

(** X23. A request whose template context is missing, or names the
    positional parameter [template_name] again, fails before anything is
    sent: the route answers 500 with the TypeError and has made no
    exchange. *)
Theorem route_bad_context remote wiki_username wiki_bot_password
    render_template format_exc request h :
  (Api.template_context request = None
   \/ exists context v,
       Api.template_context request = Some context
       /\ lookup "template_name" context = Some v) ->
  let run :=
    Api.publish_to_sandbox_only remote wiki_username wiki_bot_password
      render_template format_exc request h in
  fst run = Api.HTTPException 500 [StrOf TypeError]
  /\ exchanges (snd run) = 0%nat.
Proof.
  intros Hctx. cbv zeta.
  unfold Api.publish_to_sandbox_only, Api.publish_to_sandbox_body,
    Api.call_render_content, bind, logger, raise.
  destruct Hctx as [-> | (context & v & -> & ->)]; split; reflexivity.
Qed.

Lemma route_bad_context_witness :
  fst (Api.publish_to_sandbox_only accepts_edit (Some "Bot") (Some "pw")
         (client_renders "text") no_traceback
         (Api.mkPublishRequest "Main Article" None true
            (Some "product_wiki.txt") None) [])
  = Api.HTTPException 500 [StrOf TypeError]
  /\ exchanges
       (snd (Api.publish_to_sandbox_only accepts_edit (Some "Bot") (Some "pw")
               (client_renders "text") no_traceback
               (Api.mkPublishRequest "Main Article" None true
                  (Some "product_wiki.txt") None) []))
     = 0%nat.
Proof.
  apply (route_bad_context accepts_edit (Some "Bot") (Some "pw")
           (client_renders "text") no_traceback
           (Api.mkPublishRequest "Main Article" None true
              (Some "product_wiki.txt") None) []).
  left. reflexivity.
Defined.

Lemma prefix_empty s : prefix "" s = true.
Proof. destruct s; reflexivity. Qed.

Lemma no_space_after_replace s : str_in " " (Api.replace_spaces s) = false.
Proof.
  unfold str_in. induction s as [|c s IH]; [reflexivity|].
  cbn [Api.replace_spaces String.index prefix].
  destruct (String.index 0 " " (Api.replace_spaces s)); [discriminate|].
  destruct (Ascii.eqb c " ") eqn:Hc.
  - destruct (ascii_dec " " "_"); [discriminate|reflexivity].
  - destruct (ascii_dec " " c) as [<-|_]; [|reflexivity].
    rewrite Ascii.eqb_refl in Hc. discriminate.
Qed.

Lemma no_space_index s : str_in " " s = false <-> String.index 0 " " s = None.
Proof.
  unfold str_in. destruct (String.index 0 " " s); split; congruence.
Qed.

Lemma no_space_append p s :
  str_in " " p = false -> str_in " " s = false -> str_in " " (p ++ s) = false.
Proof.
  rewrite !no_space_index. intros Hp Hs. induction p as [|c p IH]; [exact Hs|].
  cbn [append String.index prefix] in *.
  destruct (ascii_dec " " c).
  - rewrite prefix_empty in Hp. discriminate.
  - destruct (String.index 0 " " p); [discriminate|].
    rewrite IH by reflexivity. reflexivity.
Qed.

Lemma replace_spaces_length s :
  String.length (Api.replace_spaces s) = String.length s.
Proof. induction s as [|c s IH]; cbn; congruence. Qed.

Lemma replace_spaces_get s :
  forall i,
    String.get i (Api.replace_spaces s)
    = match String.get i s with
      | Some c => Some (if Ascii.eqb c " " then "_"%char else c)
      | None => None
      end.
Proof.
  induction s as [|c s IH]; intros i; [reflexivity|].
  destruct i as [|i]; cbn [Api.replace_spaces String.get]; [reflexivity|].
  apply IH.
Qed.

(** X24. The URL the route returns is the wiki's article prefix followed
    by the sandbox title in which every space has become an underscore and
    every other character is kept in its place; so it contains no space. *)
Theorem sandbox_url_spaces_replaced sandbox_title :
  exists path,
    Api.sandbox_url sandbox_title
    = ("https://en.wikipedia.org/wiki/" ++ path)%string
    /\ String.length path = String.length sandbox_title
    /\ (forall i,
          String.get i path
          = match String.get i sandbox_title with
            | Some c => Some (if Ascii.eqb c " " then "_"%char else c)
            | None => None
            end)
    /\ str_in " " (Api.sandbox_url sandbox_title) = false.
Proof.
  exists (Api.replace_spaces sandbox_title).
  split; [reflexivity|].
  split; [apply replace_spaces_length|].
  split; [apply replace_spaces_get|].
  unfold Api.sandbox_url. apply no_space_append.
  - reflexivity.
  - apply no_space_after_replace.
Qed.

(** X25. The route never submits an edit with an empty summary: every
    edit carries the summary of the request when that is not empty, and
    [Staged content in sandbox] when the request has none or an empty
    one. *)
Theorem route_summary_never_empty remote wiki_username wiki_bot_password
    render_template format_exc request h :
  Forall (summarised (Api.summary request))
    (snd (Api.publish_to_sandbox_only remote wiki_username wiki_bot_password
            render_template format_exc request h)).
Proof.
  unfold Api.publish_to_sandbox_only.
  assert (Hbody : emits (summarised (Api.summary request))
            (Api.publish_to_sandbox_body remote wiki_username wiki_bot_password
               render_template request)).
  { unfold Api.publish_to_sandbox_body, Api.call_render_content.
    repeat emits_step;
      try solve [ apply emits_logger; exact I
                | apply emits_send; intros rp; cbn; discriminate ].
    apply emits_send. intros rp _. cbn.
    destruct (Api.summary request) as [s|].
    - destruct (String.eqb s "") eqn:Hs.
      + apply String.eqb_eq in Hs. subst s.
        eexists. split; [reflexivity|]. split; [discriminate|].
        split; [|reflexivity]. intros w Hw Hne. congruence.
      + apply String.eqb_neq in Hs.
        exists s. split; [reflexivity|]. split; [exact Hs|]. split.
        * intros w Hw _. congruence.
        * intros [H|H]; congruence.
    - eexists. split; [reflexivity|]. split; [discriminate|].
      split; [|reflexivity]. intros w Hw. discriminate. }
  specialize (Hbody h).
  destruct (Api.publish_to_sandbox_body remote wiki_username wiki_bot_password
              render_template request h) as [[v|e] d]; cbn [snd] in *.
  - exact Hbody.
  - apply Forall_app. split; [exact Hbody|]. repeat constructor.
Qed.

(** ** A whole run of [main] *)

Lemma edit_attempt_addressed remote title content summary :
  emits addressed_to_api (edit_attempt remote title content summary).
Proof.
  unfold edit_attempt.
  repeat emits_step;
    solve [ apply emits_logger; exact I
          | apply emits_send; intros rp; split; reflexivity ].
Qed.

Lemma edit_page_loop_addressed remote title content summary retries attempts :
  emits addressed_to_api
    (edit_page_loop remote title content summary retries attempts).
Proof.
  induction attempts as [|a rest IH]; cbn [edit_page_loop].
  - apply emits_ret.
  - apply emits_try; [apply edit_attempt_addressed|].
    intros e.
    repeat emits_step;
      solve [ apply emits_logger; exact I | exact IH ].
Qed.

(** X26. Every request of a run of [main], whether it comes from the
    login, from its fallback or from the publish step, goes to the API
    endpoint and asks for JSON. *)
Theorem main_requests_addressed remote render_template recursion_limit args
    env console h :
  Forall addressed_to_api
    (snd (main remote render_template recursion_limit args env console h)).
Proof.
  assert (Hmain : emits addressed_to_api
            (main remote render_template recursion_limit args env console)).
  { unfold main, render_content, main_publish, edit_page.
    apply emits_try; [|intros e; repeat emits_step; apply emits_logger; exact I].
    apply emits_bind; [repeat emits_step; apply emits_logger; exact I|].
    intros content. apply emits_bind.
    { apply get_login_token_emits;
        [exact (fun _ _ => I) | apply session_request_addressed]. }
    intros login_token. apply emits_bind.
    { apply (session_emits addressed_to_api remote);
        [exact (fun _ _ => I) | apply session_request_addressed]. }
    intros [final_username bot_password]. apply emits_bind.
    { apply edit_page_loop_addressed. }
    intros res.
    repeat emits_step; apply emits_logger; exact I. }
  apply Hmain.
Qed.

Lemma bind_quiet_submits n {A B} (m : M A) (f : A -> M B) :
  emits (fun ev => is_edit_post ev = false) m ->
  (forall a, submits_at_most n (f a)) ->
  submits_at_most n (bind m f).
Proof.
  intros Hm Hf h. unfold bind. specialize (Hm h). apply no_edit_posts in Hm.
  destruct (m h) as [[a|e] d1]; cbn [snd] in *; [|lia].
  specialize (Hf a (h ++ d1)). destruct (f a (h ++ d1)) as [r d2].
  cbn [snd] in *. rewrite edit_posts_app. lia.
Qed.

Lemma bind_submits_quiet n {A B} (m : M A) (f : A -> M B) :
  submits_at_most n m ->
  (forall a, emits (fun ev => is_edit_post ev = false) (f a)) ->
  submits_at_most n (bind m f).
Proof.
  intros Hm Hf h. unfold bind. specialize (Hm h).
  destruct (m h) as [[a|e] d1]; cbn [snd] in *; [|exact Hm].
  specialize (Hf a (h ++ d1)). apply no_edit_posts in Hf.
  destruct (f a (h ++ d1)) as [r d2].
  cbn [snd] in *. rewrite edit_posts_app. lia.
Qed.

Lemma try_reraise_submits n {A} (m : M A) prefix :
  submits_at_most n m ->
  submits_at_most n
    (try_except m (fun e => logger ERROR [Lit prefix; StrOf e] ;; raise e)).
Proof.
  intros Hm h. unfold try_except, bind, logger, raise. specialize (Hm h).
  destruct (m h) as [[a|e] d1]; cbn [fst snd app] in *; [exact Hm|].
  rewrite edit_posts_app. cbn. lia.
Qed.

Lemma edit_page_loop_posts remote title content summary retries attempts :
  submits_at_most (List.length attempts)
    (edit_page_loop remote title content summary retries attempts).
Proof.
  induction attempts as [|a rest IH]; intros h; [cbn; lia|].
  rewrite edit_page_loop_step.
  pose proof (edit_attempt_posts remote title content summary h) as Hp.
  destruct (edit_attempt remote title content summary h) as [[v|e] d];
    cbn [snd List.length] in *; [lia|].
  destruct (retryable retries a e); cbn [snd]; [|lia].
  destruct (retry_record_is_log a e) as [msg ->].
  specialize (IH ((h ++ d) ++ [Log WARNING msg])).
  rewrite edit_posts_app. unfold edit_posts in *.
  cbn [filter is_edit_post]. lia.
Qed.

(** X27. One run of [main] submits at most three edits: the login and its
    fallback submit none, and the publish step makes at most the three
    attempts of the default [retries = 2]. *)
Theorem main_submits_at_most_three remote render_template recursion_limit args
    env console h :
  (edit_posts
     (snd (main remote render_template recursion_limit args env console h))
   <= 3)%nat.
Proof.
  assert (Hmain : submits_at_most 3
            (main remote render_template recursion_limit args env console)).
  { unfold main. apply try_reraise_submits.
    apply bind_quiet_submits.
    { unfold render_content. repeat emits_step. apply emits_logger. reflexivity. }
    intros content. apply bind_quiet_submits.
    { apply get_login_token_emits;
        [reflexivity | apply session_request_not_edit]. }
    intros login_token. apply bind_quiet_submits.
    { apply (session_emits (fun ev => is_edit_post ev = false) remote);
        [reflexivity | apply session_request_not_edit]. }
    intros [final_username bot_password]. unfold main_publish.
    apply bind_submits_quiet.
    { apply (edit_page_loop_posts remote (arg_title args) content
               (arg_summary args) 2 (range (2 + 1))). }
    intros res. repeat emits_step; apply emits_logger; reflexivity. }
  apply Hmain.
Qed.

(** ** The credential that is never reported *)

Lemma emits_bind_result P {A B} (Q : A -> Prop) (m : M A) (f : A -> M B) :
  emits P m ->
  (forall h a d, m h = (Ok a, d) -> Q a) ->
  (forall a, Q a -> emits P (f a)) ->
  emits P (bind m f).
Proof.
  intros Hm Hq Hf h. unfold bind. specialize (Hm h). specialize (Hq h).
  destruct (m h) as [[a|e] d1]; cbn [snd] in *; [|exact Hm].
  specialize (Hf a (Hq a d1 eq_refl) (h ++ d1)).
  destruct (f a (h ++ d1)) as [r d2].
  cbn [snd] in *. apply Forall_app. auto.
Qed.

(** The password in the result of [login], for use below. *)
Lemma login_password_none remote depth username password token h u p d :
  login remote depth username password token h = (Ok (u, p), d) -> p = PNone.
Proof.
  destruct depth as [|depth]; [discriminate|]. cbn [login].
  intros H. apply try_reraise_inv_ok in H.
  repeat match type of H with
         | bind _ _ _ = (Ok _, _) =>
             apply bind_inv_ok in H; destruct H as (? & ? & ? & _ & H & _)
         end.
  destruct (is_str _ "Success").
  - unfold ret in H. injection H as _ <- _. reflexivity.
  - apply bind_inv_ok in H. destruct H as (code & ? & ? & _ & H & _).
    destruct (is_str code "WrongPass" && negb (str_in "@" username)).
    + apply bind_inv_ok in H. destruct H as (? & ? & ? & _ & H & _).
      apply bind_inv_ok in H. destruct H as ([bu bp] & ? & ? & Hbot & H & _).
      apply bot_identity in Hbot. subst bu.
      apply bind_inv_ok in H. destruct H as (new_token & ? & ? & _ & H & _).
      destruct depth as [|depth]; [discriminate|].
      match type of H with
      | login _ _ _ _ _ ?hh = _ =>
          pose proof (login_scoped_run remote depth
                        (username ++ "@" ++ DEFAULT_BOT_SUFFIX) bp new_token hh
                        (at_sign_in_scoped_identity username DEFAULT_BOT_SUFFIX))
            as Hs
      end.
      cbv zeta in Hs. rewrite H in Hs.
      destruct (login_accepted _).
      * inversion Hs; subst. reflexivity.
      * destruct Hs as [e Hs]. discriminate.
    + apply bind_inv_ok in H. destruct H as (? & ? & ? & _ & H & _).
      discriminate.
Qed.

Lemma session_never_reports remote depth :
  (forall username password token,
      emits (fun ev => is_credentials_report ev = false)
        (login remote depth username password token))
  /\ (forall main_username main_password botname,
      emits (fun ev => is_credentials_report ev = false)
        (create_bot_password remote depth main_username main_password botname)).
Proof.
  induction depth as [|d [IHlogin IHcreate]].
  - split; intros; apply emits_raise.
  - split; intros.
    + cbn [login].
      repeat emits_step;
        solve [ apply emits_logger; reflexivity
              | apply emits_send; reflexivity
              | apply IHlogin | apply IHcreate ].
    + cbn [create_bot_password].
      repeat emits_step;
        solve [ apply emits_logger; reflexivity
              | apply emits_send; reflexivity
              | apply IHlogin ].
Qed.

Lemma edit_page_loop_never_reports remote title content summary retries
    attempts :
  emits (fun ev => is_credentials_report ev = false)
    (edit_page_loop remote title content summary retries attempts).
Proof.
  induction attempts as [|a rest IH]; cbn [edit_page_loop].
  - apply emits_ret.
  - apply emits_try.
    + unfold edit_attempt.
      repeat emits_step;
        solve [ apply emits_logger; reflexivity
              | apply emits_send; reflexivity ].
    + intros e.
      repeat emits_step;
        solve [ apply emits_logger; reflexivity | exact IH ].
Qed.

Lemma never_reported d :
  Forall (fun ev => is_credentials_report ev = false) d ->
  credentials_reported d = false.
Proof.
  unfold credentials_reported.
  induction 1 as [|ev d Hev _ IH]; [reflexivity|].
  cbn [existsb]. rewrite Hev, IH. reflexivity.
Qed.

(** C3, on the code.  [login] hands [None] over in place of the password
    even when it has just created one, so the report that [main] would make
    under [if bot_password:] is never made: no run of [main], whatever the
    remote, the arguments and the outcome of the publish, logs the
    credential.  At the failing input the password is refused, a bot
    password is granted, the scoped login and the publish both succeed, and
    [main] returns without a record that carries the new password. *)
Theorem main_never_reports_credential :
  (forall remote render_template recursion_limit args env console h,
      credentials_reported
        (snd (main remote render_template recursion_limit args env console h))
      = false)
  /\ (let run :=
        main provisions_then_publishes (renders "text") 10 cli_args no_environ
          silent_console [] in
      fst run = Ok tt
      /\ existsb bot_password_granted (snd run) = true
      /\ credentials_reported (snd run) = false
      /\ existsb (mentions "s3cret") (snd run) = false).
Proof.
  split.
  - intros remote render_template recursion_limit args env console h.
    apply never_reported.
    assert (Hmain : emits (fun ev => is_credentials_report ev = false)
              (main remote render_template recursion_limit args env console)).
    { unfold main. apply emits_try.
      2:{ intros e. repeat emits_step. apply emits_logger. reflexivity. }
      apply emits_bind.
      { unfold render_content. repeat emits_step.
        apply emits_logger. reflexivity. }
      intros content. apply emits_bind.
      { unfold get_login_token.
        repeat emits_step;
          solve [ apply emits_logger; reflexivity
                | apply emits_send; reflexivity ]. }
      intros login_token.
      apply (emits_bind_result _ (fun result => snd result = PNone)).
      { apply session_never_reports. }
      { intros h' [u p] d' Hlogin. cbn [snd].
        eapply login_password_none. exact Hlogin. }
      intros [final_username bot_password] Hnone. cbn [snd] in Hnone.
      subst bot_password. unfold main_publish, edit_page.
      apply emits_bind; [apply edit_page_loop_never_reports|].
      intros res.
      repeat first [ progress cbn [truthy] | emits_step ];
        apply emits_logger; reflexivity. }
    apply Hmain.
  - cbv zeta. repeat split; vm_compute; reflexivity.
Qed.
